(** * Polymarket markets to Excel: a model of [main.py]

    The script fetches a list of market records from the Gamma API, derives a
    title and a list of outcome labels from every record, keeps the binary
    markets (or all of them with [--include-multi]), and writes the rows to a
    workbook.  This file embeds the five functions of [main.py]
    ([fetch_markets], [extract_title_and_outcomes], [build_rows],
    [write_excel], [main]) and proves the properties the specification
    states about them.

    Python values are modelled as the JSON decoder produces them; Python
    strings are sequences of Unicode code points; an exception is an explicit
    result; the network, the workbook library and the clock are fields of a
    [World] record, and what the process does to them is a list of events. *)

From Stdlib Require Import List NArith ZArith String Ascii Bool Lia.
From Stdlib Require Import Floats.PrimFloat DecimalString.
Import ListNotations.

Set Warnings "-register-all".

(** ** Python strings *)

(** A [str] is a sequence of code points. *)
Definition pystr := list N.

Fixpoint bytes_of (s : string) : list N :=
  match s with
  | EmptyString => []
  | String a r => N_of_ascii a :: bytes_of r
  end.

(** The literals of the script are written in UTF-8, as in [main.py]; this
    decodes them to code points (1 to 4 byte forms). *)
Fixpoint utf8_decode (bs : list N) : pystr :=
  match bs with
  | [] => []
  | b0 :: r0 =>
    if (b0 <? 128)%N then b0 :: utf8_decode r0
    else
      match r0 with
      | [] => []
      | b1 :: r1 =>
        if (b0 <? 224)%N
        then ((b0 - 192) * 64 + (b1 - 128))%N :: utf8_decode r1
        else
          match r1 with
          | [] => []
          | b2 :: r2 =>
            if (b0 <? 240)%N
            then ((b0 - 224) * 4096 + (b1 - 128) * 64 + (b2 - 128))%N
                   :: utf8_decode r2
            else
              match r2 with
              | [] => []
              | b3 :: r3 =>
                ((b0 - 240) * 262144 + (b1 - 128) * 4096
                 + (b2 - 128) * 64 + (b3 - 128))%N :: utf8_decode r3
              end
          end
      end
  end.

(** [u "text"] is the Python literal ["text"]. *)
Definition u (s : string) : pystr := utf8_decode (bytes_of s).

(** [a == b] on strings. *)
Fixpoint pystr_eqb (a b : pystr) : bool :=
  match a, b with
  | [], [] => true
  | x :: a', y :: b' => (x =? y)%N && pystr_eqb a' b'
  | _, _ => false
  end.

(** [str.isspace] on one code point: the code points CPython's
    [_PyUnicode_IsWhitespace] accepts. *)
Definition is_space (c : N) : bool :=
  ((9 <=? c) && (c <=? 13) || (28 <=? c) && (c <=? 32)
   || (c =? 133) || (c =? 160) || (c =? 5760)
   || (8192 <=? c) && (c <=? 8202)
   || (c =? 8232) || (c =? 8233) || (c =? 8239) || (c =? 8287)
   || (c =? 12288))%N.

Fixpoint lstrip (s : pystr) : pystr :=
  match s with
  | [] => []
  | c :: r => if is_space c then lstrip r else s
  end.

Definition rstrip (s : pystr) : pystr := rev (lstrip (rev s)).

(** [s.strip()] *)
Definition strip (s : pystr) : pystr := rstrip (lstrip s).

(** [", ".join(parts)] and the like. *)
Fixpoint join (sep : pystr) (parts : list pystr) : pystr :=
  match parts with
  | [] => []
  | [p] => p
  | p :: rest => p ++ sep ++ join sep rest
  end.

(** [str(n)] for an [int]. *)
Definition int_str (n : Z) : pystr := u (NilZero.string_of_int (Z.to_int n)).

(** ** JSON values, as [resp.json()] returns them *)

Inductive value : Type :=
| VNone
| VBool (b : bool)
| VInt (n : Z)
| VFloat (f : float)
| VStr (s : pystr)
| VList (l : list value)
| VDict (d : list (pystr * value)).

(** A [dict] keeps its items in insertion order; its keys are distinct. *)
Definition dict := list (pystr * value).

Fixpoint lookup (d : dict) (k : pystr) : option value :=
  match d with
  | [] => None
  | (k', v) :: r => if pystr_eqb k' k then Some v else lookup r k
  end.

(** [k in d] *)
Definition contains (d : dict) (k : pystr) : bool :=
  match lookup d k with Some _ => true | None => false end.

(** [d.get(k)]: the value, or [None] when the key is absent. *)
Definition get (d : dict) (k : pystr) : value :=
  match lookup d k with Some v => v | None => VNone end.

(** [bool(v)] *)
Definition truthy (v : value) : bool :=
  match v with
  | VNone => false
  | VBool b => b
  | VInt n => negb (n =? 0)%Z
  | VFloat f => negb (f =? 0)%float
  | VStr s => match s with [] => false | _ => true end
  | VList l => match l with [] => false | _ => true end
  | VDict d => match d with [] => false | _ => true end
  end.

(** [a or b] *)
Definition py_or (a b : value) : value := if truthy a then a else b.

(** [type(v).__name__] *)
Definition type_name (v : value) : pystr :=
  match v with
  | VNone => u "NoneType"
  | VBool _ => u "bool"
  | VInt _ => u "int"
  | VFloat _ => u "float"
  | VStr _ => u "str"
  | VList _ => u "list"
  | VDict _ => u "dict"
  end.

(** What CPython's Unicode tables and float printer compute; the model is
    stated for any of them. *)
Class PyRuntime : Type := {
  (** [repr(f)] of a float *)
  float_repr : float -> pystr;
  (** [repr(s)] of a string: the quotes and the escapes *)
  str_repr : pystr -> pystr;
  (** the lower-case mapping of a code point above 127, given the text before
      and after it (a capital sigma depends on both) *)
  unicode_lower : pystr -> N -> pystr -> pystr
}.

Section Strings.

Context {rt : PyRuntime}.

(** [repr(v)] *)
Fixpoint py_repr (v : value) : pystr :=
  match v with
  | VNone => u "None"
  | VBool true => u "True"
  | VBool false => u "False"
  | VInt n => int_str n
  | VFloat f => float_repr f
  | VStr s => str_repr s
  | VList l => u "[" ++ join (u ", ") (map py_repr l) ++ u "]"
  | VDict d =>
    u "{"
      ++ join (u ", ")
           (map (fun kv : pystr * value => let (k, x) := kv in
                           str_repr k ++ u ": " ++ py_repr x) d)
      ++ u "}"
  end.

(** [str(v)] *)
Definition py_str (v : value) : pystr :=
  match v with
  | VStr s => s
  | _ => py_repr v
  end.

Definition ascii_lower (c : N) : N :=
  if ((65 <=? c) && (c <=? 90))%N then (c + 32)%N else c.

Fixpoint lower_from (before s : pystr) : pystr :=
  match s with
  | [] => []
  | c :: r =>
    (if (c <? 128)%N then [ascii_lower c] else unicode_lower before c r)
      ++ lower_from (before ++ [c]) r
  end.

(** [s.lower()] *)
Definition lower (s : pystr) : pystr := lower_from [] s.

End Strings.

(** ** Exceptions *)

Inductive exn : Type :=
| RuntimeError (msg : pystr)
| AttributeError (msg : pystr)
  (** an exception of [requests], [json], [pandas] or [xlsxwriter], with its
      [str()] *)
| LibraryError (msg : pystr)
  (** raised by [print] when the stream cannot encode the text *)
| UnicodeEncodeError (msg : pystr).

(** [str(e)] *)
Definition exn_str (e : exn) : pystr :=
  match e with
  | RuntimeError msg => msg
  | AttributeError msg => msg
  | LibraryError msg => msg
  | UnicodeEncodeError msg => msg
  end.

(** A call returns a value or raises. *)
Inductive result (A : Type) : Type :=
| Ok (a : A)
| Raise (e : exn).

Arguments Ok {A} a.
Arguments Raise {A} e.

Definition bind {A B : Type} (r : result A) (k : A -> result B) : result B :=
  match r with
  | Ok a => k a
  | Raise e => Raise e
  end.

Notation "x <- c ;; k" := (bind c (fun x => k))
  (at level 61, c at next level, right associativity).

(** What [v.name] raises when [type(v)] has no attribute [name]. *)
Definition no_attribute (v : value) (name : pystr) : exn :=
  AttributeError
    (u "'" ++ type_name v ++ u "' object has no attribute '" ++ name ++ u "'").

(** ** The record normalizer *)

Definition UNTITLED : pystr := u "Untitled Market".
Definition DASH : pystr := u "—".

(** [not outcomes], for the variable that is [None] or a list. *)
Definition not_outcomes (outcomes : option (list pystr)) : bool :=
  match outcomes with
  | None => true
  | Some [] => true
  | Some (_ :: _) => false
  end.

Section Normalizer.

Context {rt : PyRuntime}.

(** [v.lower()]: only a [str] has the method. *)
Definition method_lower (v : value) : result pystr :=
  match v with
  | VStr s => Ok (lower s)
  | _ => Raise (no_attribute v (u "lower"))
  end.

(** [extract_title_and_outcomes(m)].  The first statement calls [m.get], which
    only a [dict] has. *)
Definition extract_title_and_outcomes (m : value)
  : result (pystr * list pystr) :=
  match m with
  | VDict d =>
    let title :=
      py_or (py_or (py_or (py_or (get d (u "question")) (get d (u "title")))
                          (get d (u "name")))
                   (get d (u "slug")))
            (VStr UNTITLED) in
    let outcomes : option (list pystr) := None in
    let outcomes :=
      match get d (u "outcomes") with
      | VList (o :: l) => Some (map py_str (o :: l))
      | _ => outcomes
      end in
    let outcomes :=
      if not_outcomes outcomes then
        match get d (u "outcomeNames") with
        | VList l => Some (map py_str l)
        | _ => outcomes
        end
      else outcomes in
    outcomes <-
      (if not_outcomes outcomes then
         cond_type <-
           method_lower
             (py_or (py_or (get d (u "conditionType")) (get d (u "type")))
                    (VStr (u ""))) ;;
         if existsb (pystr_eqb cond_type)
                    [u "binary"; u "scalar"; u "range"]
         then Ok (Some [u "Yes"; u "No"])
         else Ok outcomes
       else Ok outcomes) ;;
    let outcomes :=
      if not_outcomes outcomes then [DASH; DASH]
      else match outcomes with Some l => l | None => [] end in
    Ok (strip (py_str title), outcomes)
  | _ => Raise (no_attribute m (u "get"))
  end.

(** ** The row builder *)

(** One row of the sheet: the values under the keys ["Название рынка"],
    ["Параметр A"] and ["Параметр B"]. *)
Record ExportRow : Type := mkRow {
  row_title : pystr;
  row_a : pystr;
  row_b : pystr
}.

(** The body of the [for] loop of [build_rows], with the list [rows] built so
    far; [rows.append] adds at the end. *)
Fixpoint build_rows_from (rows : list ExportRow) (markets : list value)
         (include_multi : bool) : result (list ExportRow) :=
  match markets with
  | [] => Ok rows
  | m :: rest =>
    r <- extract_title_and_outcomes m ;;
    let (title, outcomes) := r in
    if match outcomes with [] => true | _ => false end
    then build_rows_from rows rest include_multi
    else if negb include_multi && negb (List.length outcomes =? 2)
    then build_rows_from rows rest include_multi
    else
      let opt_a := if 1 <=? List.length outcomes then nth 0 outcomes DASH
                   else DASH in
      let opt_b := if 2 <=? List.length outcomes then nth 1 outcomes DASH
                   else DASH in
      build_rows_from (rows ++ [mkRow title opt_a opt_b]) rest include_multi
  end.

(** [build_rows(markets, include_multi)] *)
Definition build_rows (markets : list value) (include_multi : bool)
  : result (list ExportRow) :=
  build_rows_from [] markets include_multi.

End Normalizer.

(** ** The world outside the process *)

Record Workbook : Type := mkWorkbook {
  (** sheet "Polymarket": the rows under the three column names *)
  sheet_polymarket : list ExportRow;
  (** sheet "Meta": the columns ["Ключ"] and ["Значение"] *)
  sheet_meta : list (pystr * pystr)
}.

Inductive stream : Type := Stdout | Stderr.

(** What the process does to the world, in order. *)
Inductive event : Type :=
| HttpGet (url : pystr) (headers : list (pystr * pystr)) (timeout : Z)
| Print (to : stream) (text : pystr)
| WorkbookWritten (path : pystr) (wb : Workbook)
  (** the interpreter reports an exception nobody caught *)
| Traceback (e : exn).

Record World : Type := mkWorld {
  (** [requests.get(url, ...)], [raise_for_status()] and [resp.json()]: the
      decoded body, or the exception one of the three raises *)
  http_json : pystr -> result value;
  (** [df.sort_values(by="Название рынка").reset_index(drop=True)] on the
      rows of the frame *)
  sort_values : list ExportRow -> list ExportRow;
  (** [datetime.datetime.utcnow().strftime("%Y-%m-%d %H:%M UTC")] *)
  utcnow_text : pystr;
  (** what [pd.ExcelWriter] and [to_excel] raise while writing the file at a
      path, or [None] when the file is written *)
  save_workbook : pystr -> Workbook -> option exn;
  (** what [print(text)] on [sys.stdout] raises ([UnicodeEncodeError] when
      the encoding of the stream lacks a character of the text), or [None]
      when the line is printed; [sys.stderr] escapes what it cannot encode
      and prints every text *)
  stdout_print : pystr -> option exn
}.

(** A computation with effects: the events it caused, and how it ended. *)
Definition io (A : Type) : Type := (list event * result A)%type.

Definition io_ret {A : Type} (a : A) : io A := ([], Ok a).
Definition io_raise {A : Type} (e : exn) : io A := ([], Raise e).

(** Do [ev], then [c]. *)
Definition after {A : Type} (ev : event) (c : io A) : io A :=
  (ev :: fst c, snd c).

Definition GAMMA_ENDPOINTS : list pystr :=
  [ u "https://gamma-api.polymarket.com/markets?limit=1000&active=true";
    u "https://gamma-api.polymarket.com/markets?limit=1000&closed=false";
    u "https://gamma-api.polymarket.com/markets?limit=1000" ].

Definition DEFAULT_HEADERS : list (pystr * pystr) :=
  [ (u "Accept", u "application/json, text/plain, */*");
    (u "User-Agent", u "Mozilla/5.0 (compatible; PolymarketExcelBot/1.0)") ].

(** [requests.get(url, headers=DEFAULT_HEADERS, timeout=20)] *)
Definition request (url : pystr) : event := HttpGet url DEFAULT_HEADERS 20.

(** [str(last_err)], where [last_err] is [None] or an exception. *)
Definition last_err_str (last_err : option exn) : pystr :=
  match last_err with
  | None => u "None"
  | Some e => exn_str e
  end.

Definition fetch_failed (last_err : option exn) : exn :=
  RuntimeError
    (u "Failed to fetch markets from Polymarket. Last error: "
       ++ last_err_str last_err).

(** The messages of [write_excel] and [main]. *)
Definition NO_DATA : pystr := u "Нет данных для записи в Excel (список пуст).".

Definition WARNING : pystr :=
  u "[Предупреждение] Не найдено подходящих рынков для экспорта.".

Definition FETCH_ERROR : pystr :=
  u "[Ошибка] Не удалось загрузить рынки Polymarket: ".

Definition WRITE_ERROR : pystr := u "[Ошибка] Не удалось записать Excel: ".

Section Process.

Context {rt : PyRuntime}.
Variable w : World.

(** The [for] loop of [fetch_markets] over the endpoints still to try, with
    the current [last_err]. *)
Fixpoint fetch_from (last_err : option exn) (urls : list pystr)
  : io (list value) :=
  match urls with
  | [] => io_raise (fetch_failed last_err)
  | url :: rest =>
    after (request url)
      match http_json w url with
      | Raise e => fetch_from (Some e) rest
      | Ok data =>
        match data with
        | VDict d =>
          if contains d (u "markets") then
            match get d (u "markets") with
            | VList l => io_ret l
            | _ => fetch_from last_err rest
            end
          else fetch_from last_err rest
        | VList l => io_ret l
        | _ => fetch_from last_err rest
        end
      end
  end.

(** [fetch_markets()] *)
Definition fetch_markets : io (list value) := fetch_from None GAMMA_ENDPOINTS.

(** [write_excel(rows, output_path)] *)
Definition write_excel (rows : list ExportRow) (output_path : pystr)
  : io unit :=
  match rows with
  | [] => io_raise (RuntimeError NO_DATA)
  | _ :: _ =>
    let df := sort_values w rows in
    let meta := [ (u "Источник", u "gamma-api.polymarket.com");
                  (u "Сгенерировано", utcnow_text w) ] in
    let wb := mkWorkbook df meta in
    match save_workbook w output_path wb with
    | Some e => io_raise e
    | None => ([WorkbookWritten output_path wb], Ok tt)
    end
  end.

(** [main()] from the point where [parse_args] has returned, with the
    values of [--output] and [--include-multi]: the events of the run and
    the exit status of the process.  The last [print] is outside every
    [try]: what it raises ends the run with a traceback. *)
Definition main (output : pystr) (include_multi : bool)
  : list event * Z :=
  let (ev1, fetched) := fetch_markets in
  match fetched with
  | Raise e =>
    (ev1 ++ [Print Stderr (FETCH_ERROR ++ exn_str e)], 2%Z)
  | Ok markets =>
    match build_rows markets include_multi with
    | Raise e => (ev1 ++ [Traceback e], 1%Z)
    | Ok rows =>
      let ev2 :=
        match rows with
        | [] => [Print Stderr WARNING]
        | _ :: _ => []
        end in
      let (ev3, written) := write_excel rows output in
      match written with
      | Raise e =>
        (ev1 ++ ev2 ++ ev3 ++ [Print Stderr (WRITE_ERROR ++ exn_str e)],
         3%Z)
      | Ok _ =>
        let line :=
          u "Готово. Записано: " ++ output ++ u " (строк: "
            ++ int_str (Z.of_nat (List.length rows)) ++ u ")" in
        match stdout_print w line with
        | None => (ev1 ++ ev2 ++ ev3 ++ [Print Stdout line], 0%Z)
        | Some e => (ev1 ++ ev2 ++ ev3 ++ [Traceback e], 1%Z)
        end
      end
    end
  end.

End Process.

(** ** The notions the properties are stated with *)

Definition TITLE_KEYS : list pystr :=
  [u "question"; u "title"; u "name"; u "slug"].

Definition RECOGNIZED : list pystr := [u "binary"; u "scalar"; u "range"].

(** The value of the first key of [keys] that is present in [d] with a value
    satisfying [p]. *)
Fixpoint first_value (p : value -> bool) (d : dict) (keys : list pystr)
  : option value :=
  match keys with
  | [] => None
  | k :: rest =>
    match lookup d k with
    | Some v => if p v then Some v else first_value p d rest
    | None => first_value p d rest
    end
  end.

Definition non_null (v : value) : bool :=
  match v with VNone => false | _ => true end.

(** A field "yields a non-empty list". *)
Definition nonempty_list (v : value) : bool :=
  match v with VList (_ :: _) => true | _ => false end.

(** Two code points are the same letter up to ASCII case. *)
Definition is_upper (c : N) : bool := ((65 <=? c) && (c <=? 90))%N.

Definition same_letter (a b : N) : bool :=
  ((a =? b) || is_upper a && (a + 32 =? b) || is_upper b && (b + 32 =? a))%N.

(** Two strings are equal "case-insensitively". *)
Fixpoint ci_equal (s t : pystr) : bool :=
  match s, t with
  | [], [] => true
  | a :: s', b :: t' => same_letter a b && ci_equal s' t'
  | _, _ => false
  end.

(** The category field of a record holds the string [s]: [conditionType]
    does, or [conditionType] holds nothing (it is absent, null or another
    false value) and [type] does. *)
Definition category_is (d : dict) (s : pystr) : Prop :=
  get d (u "conditionType") = VStr s
  \/ (truthy (get d (u "conditionType")) = false
      /\ get d (u "type") = VStr s).

(** The first usable list among the answers: the list under ["markets"] of
    an object, or a bare list. *)
Definition usable_list (answer : result value) : option (list value) :=
  match answer with
  | Ok (VList l) => Some l
  | Ok (VDict d) =>
    match lookup d (u "markets") with
    | Some (VList l) => Some l
    | _ => None
    end
  | _ => None
  end.

(** The errors among the answers, in order, and the last of them. *)
Definition errors_of (answers : list (result value)) : list exn :=
  flat_map (fun r => match r with Raise e => [e] | Ok _ => [] end) answers.

Definition last_error (answers : list (result value)) : option exn :=
  last (map Some (errors_of answers)) None.

(** [last_err] after one more answer. *)
Definition next_err (last_err : option exn) (answer : result value)
  : option exn :=
  match answer with
  | Raise e => Some e
  | Ok _ => last_err
  end.

Section Specification.

Context {rt : PyRuntime}.

(** The title the specification describes: the first of the four keys that
    is present with a non-null value, trimmed, else the placeholder. *)
Definition claimed_title (d : dict) : pystr :=
  match first_value non_null d TITLE_KEYS with
  | Some v => strip (py_str v)
  | None => UNTITLED
  end.

(** The same with "a true value" for "a non-null value". *)
Definition first_true_title (d : dict) : pystr :=
  match first_value truthy d TITLE_KEYS with
  | Some v => strip (py_str v)
  | None => UNTITLED
  end.

(** The value whose [lower()] the normalizer takes when it found no list of
    outcomes. *)
Definition category (d : dict) : value :=
  py_or (py_or (get d (u "conditionType")) (get d (u "type"))) (VStr (u "")).

(** The outcomes chosen from the category. *)
Definition category_outcomes (cond_type : pystr) : list pystr :=
  if existsb (pystr_eqb cond_type) RECOGNIZED then [u "Yes"; u "No"]
  else [DASH; DASH].

(** Normalizing every record of a list, in order; the first record that
    raises ends it. *)
Fixpoint normalize_all (markets : list value)
  : result (list (pystr * list pystr)) :=
  match markets with
  | [] => Ok []
  | m :: rest =>
    n <- extract_title_and_outcomes m ;;
    ns <- normalize_all rest ;;
    Ok (n :: ns)
  end.

(** The row [(title, outcomes[0], outcomes[1])] of a normalized record. *)
Definition first_two (n : pystr * list pystr) : ExportRow :=
  mkRow (fst n) (nth 0 (snd n) DASH) (nth 1 (snd n) DASH).

Definition has_two (n : pystr * list pystr) : bool :=
  List.length (snd n) =? 2.

(** What one turn of the loop of [build_rows] appends to [rows] for a
    normalized record. *)
Definition appended (include_multi : bool) (n : pystr * list pystr)
  : list ExportRow :=
  let (title, outcomes) := n in
  if match outcomes with [] => true | _ => false end then []
  else if negb include_multi && negb (List.length outcomes =? 2) then []
  else
    [mkRow title
           (if 1 <=? List.length outcomes then nth 0 outcomes DASH else DASH)
           (if 2 <=? List.length outcomes then nth 1 outcomes DASH else DASH)].

End Specification.

(** ** Sample runtime and worlds, to run the model on concrete records *)

(** Exact on the records below, whose strings are plain ASCII and which hold
    no float: it prints a string between single quotes and leaves a code
    point above 127 as it is. *)
Definition sample_runtime : PyRuntime :=
  {| float_repr := fun _ => u "nan";
     str_repr := fun s => u "'" ++ s ++ u "'";
     unicode_lower := fun _ c _ => [c] |}.

(** A world where every endpoint answers [answer], the sort keeps the rows
    as they are and the file system accepts every write. *)
Definition constant_world (answer : result value) : World :=
  mkWorld (fun _ => answer) (fun rows => rows) (u "2024-01-01 00:00 UTC")
          (fun _ _ => None) (fun _ => None).

Definition rain : value :=
  VDict [ (u "question", VStr (u "Will it rain?"));
          (u "outcomes", VList [VStr (u "Yes"); VStr (u "No")]) ].

Definition pick_a_color : value :=
  VDict [ (u "title", VStr (u "Pick a color"));
          (u "outcomes",
           VList [VStr (u "Red"); VStr (u "Blue"); VStr (u "Green")]) ].

Definition mystery_market : value :=
  VDict [ (u "slug", VStr (u "mystery-market")) ].

(** A record that says what it is only by its [type]. *)
Definition typed_binary : dict := [ (u "type", VStr (u "Binary")) ].

(** A record whose [question] is present and empty. *)
Definition empty_question : dict :=
  [ (u "question", VStr (u ""));
    (u "title", VStr (u "Will it rain?")) ].

(** The three endpoints answer: an error, an object without a list, and a
    list of one record. *)
Definition third_answers : World :=
  mkWorld
    (fun url =>
       if pystr_eqb url (nth 0 GAMMA_ENDPOINTS [])
       then Raise (LibraryError (u "503 Server Error"))
       else if pystr_eqb url (nth 1 GAMMA_ENDPOINTS [])
            then Ok (VDict [(u "error", VStr (u "bad query"))])
            else Ok (VList [rain]))
    (fun rows => rows) (u "2024-01-01 00:00 UTC") (fun _ _ => None)
    (fun _ => None).

(** ** Notions and sample inputs for the further properties *)

(** A string that neither starts nor ends with whitespace. *)
Definition trimmed (t : pystr) : bool :=
  match t with
  | [] => true
  | c :: _ => negb (is_space c) && negb (is_space (last t c))
  end.

(** The keys [extract_title_and_outcomes] looks up. *)
Definition NORMALIZER_KEYS : list pystr :=
  [u "question"; u "title"; u "name"; u "slug";
   u "outcomes"; u "outcomeNames"; u "conditionType"; u "type"].

(** The workbook [write_excel] hands to the library for a list of rows. *)
Definition workbook_of (w : World) (rows : list ExportRow) : Workbook :=
  mkWorkbook (sort_values w rows)
             [ (u "Источник", u "gamma-api.polymarket.com");
               (u "Сгенерировано", utcnow_text w) ].


(** The last line of a successful run. *)
Definition done_message (output : pystr) (rows : list ExportRow) : pystr :=
  u "Готово. Записано: " ++ output ++ u " (строк: "
    ++ int_str (Z.of_nat (List.length rows)) ++ u ")".

(** A record whose [question] is blank. *)
Definition blank_question : dict :=
  [ (u "question", VStr (u "   "));
    (u "title", VStr (u "Real title")) ].

(** A record with one outcome. *)
Definition solo : value :=
  VDict [ (u "title", VStr (u "Solo"));
          (u "outcomes", VList [VStr (u "Only")]) ].

(** A record whose [conditionType] is not recognized and whose [type] is. *)
Definition shadowed_type : dict :=
  [ (u "conditionType", VStr (u "categorical"));
    (u "type", VStr (u "binary")) ].

(** A record with outcomes that are not trimmed and a numeric [type]. *)
Definition padded_outcomes : dict :=
  [ (u "outcomes", VList [VStr (u " Yes "); VStr (u "No")]);
    (u "outcomeNames", VList [VStr (u "Up"); VStr (u "Down")]);
    (u "type", VInt 1) ].

(** A record with an empty [outcomes] and names under [outcomeNames]. *)
Definition names_only : dict :=
  [ (u "outcomes", VList []);
    (u "outcomeNames", VList [VStr (u "Up"); VStr (u "Down")]) ].

(** A record whose only title is padded with whitespace. *)
Definition padded_name : value :=
  VDict [ (u "name", VStr (u "  Will it rain?  ")) ].

(** The fields of a binary market, alone and with fields the normalizer
    does not know. *)
Definition rain_fields : dict :=
  [ (u "question", VStr (u "Will it rain?"));
    (u "outcomes", VList [VStr (u "Yes"); VStr (u "No")]) ].

Definition rain_with_more : dict :=
  [ (u "id", VInt 7);
    (u "question", VStr (u "Will it rain?"));
    (u "liquidity", VStr (u "1200.5"));
    (u "outcomes", VList [VStr (u "Yes"); VStr (u "No")]);
    (u "active", VBool true) ].

(** A record with a numeric [type] and nothing else. *)
Definition numeric_type : value := VDict [ (u "type", VInt 1) ].

(** A world like [constant_world] where the file system refuses every
    write. *)
Definition read_only_world (answer : result value) : World :=
  mkWorld (fun _ => answer) (fun rows => rows) (u "2024-01-01 00:00 UTC")
          (fun _ _ => Some (LibraryError (u "Permission denied")))
          (fun _ => None).

(** A world like [constant_world] whose stdout is ASCII only: [print] raises
    on a text with a code point above 127. *)
Definition ascii_stdout_world (answer : result value) : World :=
  mkWorld (fun _ => answer) (fun rows => rows) (u "2024-01-01 00:00 UTC")
          (fun _ _ => None)
          (fun text =>
             if forallb (fun c => (c <? 128)%N) text then None
             else Some (UnicodeEncodeError
                          (u "'ascii' codec can't encode characters"))).

(** The endpoints answer: an error, an object without a list, and another
    error; and: an error, then two objects without a list. *)
Definition failing_world : World :=
  mkWorld
    (fun url =>
       if pystr_eqb url (nth 0 GAMMA_ENDPOINTS [])
       then Raise (LibraryError (u "503 Server Error"))
       else if pystr_eqb url (nth 1 GAMMA_ENDPOINTS [])
            then Ok (VDict [(u "error", VStr (u "bad query"))])
            else Raise (LibraryError (u "Read timed out")))
    (fun rows => rows) (u "2024-01-01 00:00 UTC") (fun _ _ => None)
    (fun _ => None).

Definition failing_once_world : World :=
  mkWorld
    (fun url =>
       if pystr_eqb url (nth 0 GAMMA_ENDPOINTS [])
       then Raise (LibraryError (u "503 Server Error"))
       else Ok (VDict [(u "markets", VStr (u "none"))]))
    (fun rows => rows) (u "2024-01-01 00:00 UTC") (fun _ _ => None)
    (fun _ => None).

(** A record with a title, no outcomes and a numeric [type]; one with a
    title and a boolean [conditionType]. *)
Definition mystery_numeric : value :=
  VDict [ (u "slug", VStr (u "mystery-market")); (u "type", VInt 1) ].

Definition flagged : dict :=
  [ (u "question", VStr (u "Will it rain?"));
    (u "conditionType", VBool true) ].

(** * Properties *)

Arguments u : simpl never.

Section NormalizerProperties.

Context {rt : PyRuntime}.

(** ** Strings *)

Lemma pystr_eqb_eq (a b : pystr) : pystr_eqb a b = true <-> a = b.
Proof.
  revert b. induction a as [|x a IH]; intros [|y b]; cbn [pystr_eqb];
    try (split; [discriminate | congruence]); [tauto|].
  rewrite andb_true_iff, N.eqb_eq, IH. split.
  - intros [-> ->]. reflexivity.
  - intros H. inversion H. split; reflexivity.
Qed.

Lemma same_letter_lower (a b : N) :
  same_letter a b = true -> (97 <= b <= 122)%N ->
  (a <? 128)%N = true /\ ascii_lower a = b.
Proof.
  unfold same_letter, is_upper, ascii_lower. intros H Hb.
  rewrite !orb_true_iff, !andb_true_iff in H.
  rewrite !N.leb_le, !N.eqb_eq in H.
  destruct H as [[H | [[H1 H2] H]] | [[H1 H2] H]]; subst.
  - split; [apply N.ltb_lt; lia|].
    destruct ((65 <=? b) && (b <=? 90))%N eqn:E; [|reflexivity].
    rewrite andb_true_iff, !N.leb_le in E. lia.
  - split; [apply N.ltb_lt; lia|].
    destruct ((65 <=? a) && (a <=? 90))%N eqn:E; [reflexivity|].
    rewrite andb_false_iff, !N.leb_gt in E. lia.
  - lia.
Qed.

(** A string that equals a lower-case ASCII word up to case has that word as
    its [lower()]. *)
Lemma lower_ci_equal (t : pystr) :
  Forall (fun b => (97 <= b <= 122)%N) t ->
  forall s before, ci_equal s t = true -> lower_from before s = t.
Proof.
  induction 1 as [|b t Hb Ht IH]; intros [|a s] before Hci;
    simpl in Hci; try discriminate; [reflexivity|].
  apply andb_true_iff in Hci. destruct Hci as [Hab Hci].
  destruct (same_letter_lower _ _ Hab Hb) as [Hlt Hlow].
  simpl. rewrite Hlt, Hlow. simpl. f_equal. apply IH. exact Hci.
Qed.

Lemma recognized_lower (s t : pystr) :
  In t RECOGNIZED -> ci_equal s t = true ->
  existsb (pystr_eqb (lower s)) RECOGNIZED = true.
Proof.
  intros Hin Hci. apply existsb_exists. exists t. split; [exact Hin|].
  apply pystr_eqb_eq. unfold lower. apply lower_ci_equal; [|exact Hci].
  unfold RECOGNIZED in Hin. simpl in Hin.
  destruct Hin as [<- | [<- | [<- | []]]];
    apply Forall_forall; intros b Hb; vm_compute in Hb;
    repeat (destruct Hb as [<- | Hb]; [lia|]); destruct Hb.
Qed.

(** ** The normalizer, case by case *)

Lemma title_or_chain (d : dict) :
  py_or (py_or (py_or (py_or (get d (u "question")) (get d (u "title")))
                      (get d (u "name")))
               (get d (u "slug")))
        (VStr UNTITLED)
  = match first_value truthy d TITLE_KEYS with
    | Some v => v
    | None => VStr UNTITLED
    end.
Proof.
  unfold TITLE_KEYS, first_value, get, py_or.
  destruct (lookup d (u "question")) as [v1|];
    [destruct (truthy v1) eqn:E1|]; cbn [truthy];
    rewrite ?E1; try reflexivity;
    (destruct (lookup d (u "title")) as [v2|];
      [destruct (truthy v2) eqn:E2|]; cbn [truthy];
      rewrite ?E2; try reflexivity;
      (destruct (lookup d (u "name")) as [v3|];
        [destruct (truthy v3) eqn:E3|]; cbn [truthy];
        rewrite ?E3; try reflexivity;
        (destruct (lookup d (u "slug")) as [v4|];
          [destruct (truthy v4) eqn:E4|]; cbn [truthy];
          rewrite ?E4; reflexivity))).
Qed.

Lemma title_first_true (d : dict) :
  strip (py_str
           (py_or (py_or (py_or (py_or (get d (u "question"))
                                       (get d (u "title")))
                                (get d (u "name")))
                         (get d (u "slug")))
                  (VStr UNTITLED)))
  = first_true_title d.
Proof.
  rewrite title_or_chain. unfold first_true_title.
  destruct (first_value truthy d TITLE_KEYS); reflexivity.
Qed.

(** The field [outcomes] holds a non-empty list: its strings are the
    outcomes. *)
Lemma extract_outcomes (d : dict) (o : value) (l : list value) :
  get d (u "outcomes") = VList (o :: l) ->
  extract_title_and_outcomes (VDict d)
  = Ok (first_true_title d, map py_str (o :: l)).
Proof.
  intros H. unfold extract_title_and_outcomes. rewrite H.
  cbn [not_outcomes map bind]. rewrite title_first_true. reflexivity.
Qed.

(** It does not, and [outcomeNames] holds a non-empty list. *)
Lemma extract_outcome_names (d : dict) (o : value) (l : list value) :
  nonempty_list (get d (u "outcomes")) = false ->
  get d (u "outcomeNames") = VList (o :: l) ->
  extract_title_and_outcomes (VDict d)
  = Ok (first_true_title d, map py_str (o :: l)).
Proof.
  intros H1 H2. unfold extract_title_and_outcomes. rewrite H2.
  destruct (get d (u "outcomes")) as [| | | | |[|o' l']|];
    try discriminate H1;
    cbn [not_outcomes map bind]; rewrite title_first_true; reflexivity.
Qed.

(** Neither does: the category decides, if it has a [lower()]. *)
Lemma extract_category (d : dict) :
  nonempty_list (get d (u "outcomes")) = false ->
  nonempty_list (get d (u "outcomeNames")) = false ->
  extract_title_and_outcomes (VDict d)
  = (cond_type <- method_lower (category d) ;;
     Ok (first_true_title d, category_outcomes cond_type)).
Proof.
  intros H1 H2. unfold extract_title_and_outcomes.
  fold (category d). fold RECOGNIZED. unfold category_outcomes.
  destruct (get d (u "outcomes")) as [| | | | |[|o' l']|];
    try discriminate H1;
    (destruct (get d (u "outcomeNames")) as [| | | | |[|o2 l2]|];
     try discriminate H2);
    cbn [not_outcomes map bind];
    (destruct (method_lower (category d)) as [c|e]; [|reflexivity]);
    cbn [bind];
    (destruct (existsb (pystr_eqb c) RECOGNIZED));
    cbn [not_outcomes bind]; rewrite title_first_true; reflexivity.
Qed.

Lemma nonempty_list_inv (v : value) :
  nonempty_list v = true -> exists o l, v = VList (o :: l).
Proof.
  destruct v as [| | | | |[|o l]|]; try discriminate. intros _. eauto.
Qed.

Lemma category_is_str (d : dict) (s : pystr) :
  category_is d s -> s <> [] -> category d = VStr s.
Proof.
  intros [H | [H1 H2]] Hs; unfold category, py_or.
  - rewrite H. destruct s; [congruence | reflexivity].
  - rewrite H1, H2. destruct s; [congruence | reflexivity].
Qed.

(** ** The claims about the normalizer *)

(** C2.  The normalizer is not total: on the record [{"type": 1}] it raises
    [AttributeError], because the category value is a number and a number has
    no [lower()]. *)
Theorem extract_raises_on_numeric_type :
  extract_title_and_outcomes (VDict [(u "type", VInt 1)])
  = Raise (AttributeError (u "'int' object has no attribute 'lower'")).
Proof. reflexivity. Qed.

(** C3, amended.  Either the normalizer returns, and the title is the
    trimmed [str()] of the first of [question], [title], [name], [slug] that
    holds a true value, or ["Untitled Market"] when none does; or no list of
    outcomes was found and taking [lower()] of the category raised. *)
Theorem title_is_first_true_value (d : dict) :
  (exists os,
      extract_title_and_outcomes (VDict d) = Ok (first_true_title d, os))
  \/ (nonempty_list (get d (u "outcomes")) = false
      /\ nonempty_list (get d (u "outcomeNames")) = false
      /\ exists e, method_lower (category d) = Raise e
                   /\ extract_title_and_outcomes (VDict d) = Raise e).
Proof.
  destruct (nonempty_list (get d (u "outcomes"))) eqn:H1.
  { apply nonempty_list_inv in H1. destruct H1 as (o & l & H1).
    left. eexists. apply (extract_outcomes d o l H1). }
  destruct (nonempty_list (get d (u "outcomeNames"))) eqn:H2.
  { apply nonempty_list_inv in H2. destruct H2 as (o & l & H2).
    left. eexists. apply (extract_outcome_names d o l H1 H2). }
  rewrite (extract_category d H1 H2).
  destruct (method_lower (category d)) as [c|e].
  - left. eexists. reflexivity.
  - right. repeat split. exists e. split; reflexivity.
Qed.

(** C4.  A record where neither [outcomes] nor [outcomeNames] holds a
    non-empty list and whose category equals ["binary"], ["scalar"] or
    ["range"] up to case normalizes to the outcomes [["Yes", "No"]]. *)
Theorem category_defaults_to_yes_no (d : dict) (s t : pystr) :
  nonempty_list (get d (u "outcomes")) = false ->
  nonempty_list (get d (u "outcomeNames")) = false ->
  category_is d s ->
  In t RECOGNIZED ->
  ci_equal s t = true ->
  extract_title_and_outcomes (VDict d)
  = Ok (first_true_title d, [u "Yes"; u "No"]).
Proof.
  intros H1 H2 Hcat Hin Hci.
  assert (Hs : s <> []).
  { intros ->. destruct t; [|discriminate Hci].
    unfold RECOGNIZED in Hin. simpl in Hin.
    destruct Hin as [E | [E | [E | []]]]; vm_compute in E; discriminate E. }
  rewrite (extract_category d H1 H2), (category_is_str d s Hcat Hs).
  cbn [method_lower bind]. unfold category_outcomes.
  rewrite (recognized_lower s t Hin Hci). reflexivity.
Qed.

Lemma extract_nonempty (m : value) (title : pystr) (os : list pystr) :
  extract_title_and_outcomes m = Ok (title, os) -> os <> [].
Proof.
  intros H.
  destruct m as [| | | | | |d]; try discriminate H.
  destruct (nonempty_list (get d (u "outcomes"))) eqn:H1.
  { apply nonempty_list_inv in H1. destruct H1 as (o & l & H1).
    rewrite (extract_outcomes d o l H1) in H. inversion H. discriminate. }
  destruct (nonempty_list (get d (u "outcomeNames"))) eqn:H2.
  { apply nonempty_list_inv in H2. destruct H2 as (o & l & H2).
    rewrite (extract_outcome_names d o l H1 H2) in H. inversion H.
    discriminate. }
  rewrite (extract_category d H1 H2) in H.
  destruct (method_lower (category d)) as [c|e]; [|discriminate H].
  cbn [bind] in H. inversion H. unfold category_outcomes.
  destruct (existsb (pystr_eqb c) RECOGNIZED); discriminate.
Qed.

(** No list and no recognized category: the placeholder pair. *)
Lemma extract_placeholder (d : dict) (s : pystr) :
  nonempty_list (get d (u "outcomes")) = false ->
  nonempty_list (get d (u "outcomeNames")) = false ->
  category d = VStr s ->
  existsb (pystr_eqb (lower s)) RECOGNIZED = false ->
  extract_title_and_outcomes (VDict d)
  = Ok (first_true_title d, [DASH; DASH]).
Proof.
  intros H1 H2 Hcat Hrec.
  rewrite (extract_category d H1 H2), Hcat. cbn [method_lower bind].
  unfold category_outcomes. rewrite Hrec. reflexivity.
Qed.

(** The normalizer returns on a record exactly when it finds a list of
    outcomes or the category is a string. *)
Lemma extract_returns (d : dict) :
  (exists n, extract_title_and_outcomes (VDict d) = Ok n)
  <-> (nonempty_list (get d (u "outcomes")) = true
       \/ nonempty_list (get d (u "outcomeNames")) = true
       \/ exists s, category d = VStr s).
Proof.
  destruct (nonempty_list (get d (u "outcomes"))) eqn:H1.
  { split; [auto|]. intros _.
    apply nonempty_list_inv in H1. destruct H1 as (o & l & H1).
    rewrite (extract_outcomes d o l H1). eauto. }
  destruct (nonempty_list (get d (u "outcomeNames"))) eqn:H2.
  { split; [auto|]. intros _.
    apply nonempty_list_inv in H2. destruct H2 as (o & l & H2).
    rewrite (extract_outcome_names d o l H1 H2). eauto. }
  rewrite (extract_category d H1 H2). split.
  - intros [n H]. right. right.
    destruct (category d); try discriminate H. eauto.
  - intros [H | [H | [s H]]]; try discriminate H.
    rewrite H. cbn [method_lower bind]. eauto.
Qed.

(** The outcomes the normalizer returns are never empty; and when
    neither field holds a non-empty list and the category is a string that
    is not recognized (the empty string when there is no category), they are
    the placeholder pair. *)
Theorem outcomes_never_empty (m : value) :
  (forall title os,
      extract_title_and_outcomes m = Ok (title, os) -> os <> [])
  /\ (forall d s,
         m = VDict d ->
         nonempty_list (get d (u "outcomes")) = false ->
         nonempty_list (get d (u "outcomeNames")) = false ->
         category d = VStr s ->
         existsb (pystr_eqb (lower s)) RECOGNIZED = false ->
         extract_title_and_outcomes m = Ok (first_true_title d, [DASH; DASH])).
Proof.
  split.
  - apply extract_nonempty.
  - intros d s -> H1 H2 Hcat Hrec.
    apply (extract_placeholder d s); assumption.
Qed.

End NormalizerProperties.

Section RowBuilderProperties.

Context {rt : PyRuntime}.

(** ** The loop of [build_rows] *)

Lemma build_rows_from_cons (m : value) (rest : list value)
      (include_multi : bool) (rows : list ExportRow) :
  build_rows_from rows (m :: rest) include_multi
  = (n <- extract_title_and_outcomes m ;;
     build_rows_from (rows ++ appended include_multi n) rest include_multi).
Proof.
  cbn [build_rows_from].
  destruct (extract_title_and_outcomes m) as [[title outcomes]|e];
    cbn [bind]; [|reflexivity].
  unfold appended.
  destruct (match outcomes with [] => true | _ :: _ => false end);
    [|destruct (negb include_multi && negb (List.length outcomes =? 2))];
    rewrite ?app_nil_r; reflexivity.
Qed.

Lemma build_rows_from_spec (markets : list value) (include_multi : bool) :
  forall rows,
    build_rows_from rows markets include_multi
    = (ns <- normalize_all markets ;;
       Ok (rows ++ flat_map (appended include_multi) ns)).
Proof.
  induction markets as [|m rest IH]; intros rows.
  - cbn [build_rows_from normalize_all bind flat_map].
    rewrite app_nil_r. reflexivity.
  - rewrite build_rows_from_cons. cbn [normalize_all].
    destruct (extract_title_and_outcomes m) as [n|e]; cbn [bind];
      [|reflexivity].
    rewrite IH. destruct (normalize_all rest) as [ns|e];
      cbn [bind flat_map]; [|reflexivity].
    rewrite app_assoc. reflexivity.
Qed.

Lemma normalize_all_app (xs ys : list value) :
  normalize_all (xs ++ ys)
  = (nx <- normalize_all xs ;; ny <- normalize_all ys ;; Ok (nx ++ ny)).
Proof.
  induction xs as [|m xs IH]; cbn [app normalize_all bind].
  - destruct (normalize_all ys); reflexivity.
  - destruct (extract_title_and_outcomes m) as [n|e]; cbn [bind];
      [|reflexivity].
    rewrite IH. destruct (normalize_all xs) as [nx|e]; cbn [bind];
      [|reflexivity].
    destruct (normalize_all ys); reflexivity.
Qed.

Lemma normalize_all_length (markets : list value) :
  forall ns, normalize_all markets = Ok ns ->
             List.length ns = List.length markets.
Proof.
  induction markets as [|m rest IH]; cbn [normalize_all]; intros ns H.
  - inversion H. reflexivity.
  - destruct (extract_title_and_outcomes m) as [n|e]; [|discriminate H].
    cbn [bind] in H. destruct (normalize_all rest) as [ns'|e];
      [|discriminate H].
    inversion H. cbn [List.length]. f_equal. apply IH. reflexivity.
Qed.

Lemma normalize_all_nonempty (markets : list value) :
  forall ns, normalize_all markets = Ok ns ->
             Forall (fun n => snd n <> []) ns.
Proof.
  induction markets as [|m rest IH]; cbn [normalize_all]; intros ns H.
  - inversion H. constructor.
  - destruct (extract_title_and_outcomes m) as [[title os]|e] eqn:E;
      [|discriminate H].
    cbn [bind] in H. destruct (normalize_all rest) as [ns'|e];
      [|discriminate H].
    inversion H. constructor; [|apply IH; reflexivity].
    cbn [snd]. exact (extract_nonempty m title os E).
Qed.

Lemma appended_default (n : pystr * list pystr) :
  appended false n = if has_two n then [first_two n] else [].
Proof.
  destruct n as [title [|a [|b [|c more]]]]; reflexivity.
Qed.

Lemma appended_multi (n : pystr * list pystr) :
  snd n <> [] -> appended true n = [first_two n].
Proof.
  destruct n as [title [|a [|b more]]]; cbn [snd]; intros H;
    [congruence| |]; reflexivity.
Qed.

Lemma flat_map_filter_map {A B : Type} (p : A -> bool) (f : A -> B)
      (g : A -> list B) (l : list A) :
  (forall x, In x l -> g x = if p x then [f x] else []) ->
  flat_map g l = map f (filter p l).
Proof.
  induction l as [|x l IH]; intros H; cbn [flat_map filter map];
    [reflexivity|].
  rewrite (H x (or_introl eq_refl)), IH
    by (intros y Hy; apply H; right; exact Hy).
  destruct (p x); reflexivity.
Qed.

Lemma flat_map_all {A B : Type} (f : A -> B) (g : A -> list B) (l : list A) :
  (forall x, In x l -> g x = [f x]) -> flat_map g l = map f l.
Proof.
  induction l as [|x l IH]; intros H; cbn [flat_map map]; [reflexivity|].
  rewrite (H x (or_introl eq_refl)), IH
    by (intros y Hy; apply H; right; exact Hy).
  reflexivity.
Qed.

Lemma build_rows_spec (markets : list value) (include_multi : bool) :
  build_rows markets include_multi
  = (ns <- normalize_all markets ;;
     Ok (flat_map (appended include_multi) ns)).
Proof. unfold build_rows. apply build_rows_from_spec. Qed.

Lemma build_rows_app (xs ys : list value) (include_multi : bool) :
  build_rows (xs ++ ys) include_multi
  = (rx <- build_rows xs include_multi ;;
     ry <- build_rows ys include_multi ;;
     Ok (rx ++ ry)).
Proof.
  rewrite !build_rows_spec, normalize_all_app.
  destruct (normalize_all xs) as [nx|e]; cbn [bind]; [|reflexivity].
  destruct (normalize_all ys) as [ny|e]; cbn [bind]; [|reflexivity].
  rewrite flat_map_app. reflexivity.
Qed.

(** ** The claims about the row builder *)

(** Without [include_multi], [build_rows] normalizes the records in
    order, keeps those with exactly two outcomes and maps each to the row
    [(title, outcomes[0], outcomes[1])], in the order of the input.  A
    record with no list of outcomes and no recognized category normalizes to
    the placeholder pair and is kept; so the record
    [{"slug": "mystery-market"}]. *)
Theorem build_rows_default (markets : list value) :
  build_rows markets false
  = (ns <- normalize_all markets ;; Ok (map first_two (filter has_two ns)))
  /\ (forall d s,
         nonempty_list (get d (u "outcomes")) = false ->
         nonempty_list (get d (u "outcomeNames")) = false ->
         category d = VStr s ->
         existsb (pystr_eqb (lower s)) RECOGNIZED = false ->
         build_rows [VDict d] false
         = Ok [mkRow (first_true_title d) DASH DASH])
  /\ extract_title_and_outcomes mystery_market
     = Ok (u "mystery-market", [DASH; DASH])
  /\ build_rows [mystery_market] false
     = Ok [mkRow (u "mystery-market") DASH DASH].
Proof.
  split; [|split; [|split; reflexivity]].
  - rewrite build_rows_spec.
    destruct (normalize_all markets) as [ns|e]; cbn [bind]; [|reflexivity].
    f_equal. apply flat_map_filter_map. intros n _. apply appended_default.
  - intros d s H1 H2 Hcat Hrec. unfold build_rows.
    rewrite build_rows_from_cons, (extract_placeholder d s H1 H2 Hcat Hrec).
    reflexivity.
Qed.

(** C6.  A record that normalizes to more than two outcomes adds no row
    without [include_multi], wherever it stands in the input, and with
    [include_multi] adds the row of its title and its first two outcomes;
    so for the record "Pick a color" with the outcomes Red, Blue, Green. *)
Theorem multi_outcome_record (m : value) (title a b c : pystr)
        (more : list pystr) (before after : list value) :
  extract_title_and_outcomes m = Ok (title, a :: b :: c :: more) ->
  build_rows (before ++ m :: after) false = build_rows (before ++ after) false
  /\ build_rows (before ++ m :: after) true
     = (r1 <- build_rows before true ;;
        r2 <- build_rows after true ;;
        Ok (r1 ++ mkRow title a b :: r2))
  /\ build_rows [pick_a_color] false = Ok []
  /\ build_rows [pick_a_color] true
     = Ok [mkRow (u "Pick a color") (u "Red") (u "Blue")].
Proof.
  intros H.
  assert (Hm : forall include_multi,
             build_rows [m] include_multi
             = Ok (if include_multi then [mkRow title a b] else [])).
  { intros im. unfold build_rows. rewrite build_rows_from_cons, H.
    destruct im; reflexivity. }
  split; [|split; [|split; reflexivity]].
  - rewrite !build_rows_app.
    change (m :: after) with ([m] ++ after).
    rewrite build_rows_app, Hm.
    destruct (build_rows before false), (build_rows after false);
      reflexivity.
  - rewrite build_rows_app.
    change (m :: after) with ([m] ++ after).
    rewrite build_rows_app, Hm.
    destruct (build_rows before true), (build_rows after true);
      reflexivity.
Qed.

(** With [include_multi], [build_rows] makes one row of every record,
    in order: it skips none, and the rows it returns are as many as the
    records. *)
Theorem build_rows_multi_keeps_all (markets : list value) :
  build_rows markets true
  = (ns <- normalize_all markets ;; Ok (map first_two ns))
  /\ (forall rows,
         build_rows markets true = Ok rows ->
         List.length rows = List.length markets).
Proof.
  assert (E : build_rows markets true
              = (ns <- normalize_all markets ;; Ok (map first_two ns))).
  { rewrite build_rows_spec.
    destruct (normalize_all markets) as [ns|e] eqn:Hn; cbn [bind];
      [|reflexivity].
    f_equal. apply flat_map_all. intros n Hin. apply appended_multi.
    pose proof (normalize_all_nonempty markets ns Hn) as Hall.
    rewrite Forall_forall in Hall. apply Hall. exact Hin. }
  split; [exact E|].
  intros rows H. rewrite E in H.
  destruct (normalize_all markets) as [ns|e] eqn:Hn; [|discriminate H].
  cbn [bind] in H. inversion H. rewrite length_map.
  apply normalize_all_length. exact Hn.
Qed.

End RowBuilderProperties.

Section ProcessProperties.

Context {rt : PyRuntime}.
Variable w : World.

(** ** The loop of [fetch_markets] *)

Lemma fetch_step_usable (url : pystr) (rest : list pystr) (l : list value)
      (last_err : option exn) :
  usable_list (http_json w url) = Some l ->
  fetch_from w last_err (url :: rest) = ([request url], Ok l).
Proof.
  intros H. cbn [fetch_from]. unfold usable_list in H.
  destruct (http_json w url) as [data|e]; [|discriminate H].
  destruct data as [| | | | |l'|d]; try discriminate H.
  - inversion H. reflexivity.
  - unfold contains, get.
    destruct (lookup d (u "markets")) as [v|]; [|discriminate H].
    destruct v; try discriminate H. inversion H. reflexivity.
Qed.

Lemma fetch_step_unusable (url : pystr) (rest : list pystr)
      (last_err : option exn) :
  usable_list (http_json w url) = None ->
  fetch_from w last_err (url :: rest)
  = after (request url)
          (fetch_from w (next_err last_err (http_json w url)) rest).
Proof.
  intros H. cbn [fetch_from]. unfold usable_list in H.
  destruct (http_json w url) as [data|e]; [|reflexivity].
  cbn [next_err].
  destruct data as [| | | | |l'|d]; try discriminate H; try reflexivity.
  unfold contains, get.
  destruct (lookup d (u "markets")) as [v|]; [|reflexivity].
  destruct v; try discriminate H; reflexivity.
Qed.

Lemma last_cons {A : Type} (l : list A) :
  forall a d, last (a :: l) d = last l a.
Proof.
  induction l as [|b l IH]; intros a d; [reflexivity|].
  change (last (a :: b :: l) d) with (last (b :: l) d).
  rewrite !IH. reflexivity.
Qed.

Lemma fold_next_err (answers : list (result value)) :
  forall last_err,
    fold_left next_err answers last_err
    = last (map Some (errors_of answers)) last_err.
Proof.
  induction answers as [|r answers IH]; intros last_err; [reflexivity|].
  cbn [fold_left]. rewrite IH. unfold errors_of. cbn [flat_map].
  destruct r as [v|e]; cbn [next_err app map]; [reflexivity|].
  rewrite last_cons. reflexivity.
Qed.

Lemma fetch_all_unusable (urls : list pystr) :
  (forall url, In url urls -> usable_list (http_json w url) = None) ->
  forall last_err,
    fetch_from w last_err urls
    = (map request urls,
       Raise (fetch_failed
                (fold_left next_err (map (http_json w) urls) last_err))).
Proof.
  induction urls as [|url rest IH]; intros H last_err; [reflexivity|].
  rewrite fetch_step_unusable by (apply H; left; reflexivity).
  rewrite IH by (intros x Hx; apply H; right; exact Hx).
  reflexivity.
Qed.

Lemma fetch_first_usable (pre : list pystr) (url : pystr)
      (post : list pystr) (l : list value) :
  (forall x, In x pre -> usable_list (http_json w x) = None) ->
  usable_list (http_json w url) = Some l ->
  forall last_err,
    fetch_from w last_err (pre ++ url :: post)
    = (map request (pre ++ [url]), Ok l).
Proof.
  intros Hpre Hurl. induction pre as [|x pre IH]; intros last_err.
  - apply fetch_step_usable. exact Hurl.
  - cbn [app]. rewrite fetch_step_unusable by (apply Hpre; left; reflexivity).
    rewrite IH by (intros y Hy; apply Hpre; right; exact Hy).
    reflexivity.
Qed.

Lemma first_usable_or_none (urls : list pystr) :
  (exists pre url post l,
      urls = pre ++ url :: post
      /\ (forall x, In x pre -> usable_list (http_json w x) = None)
      /\ usable_list (http_json w url) = Some l)
  \/ (forall url, In url urls -> usable_list (http_json w url) = None).
Proof.
  induction urls as [|url rest IH].
  - right. intros url [].
  - destruct (usable_list (http_json w url)) as [l|] eqn:E.
    + left. exists [], url, rest, l. repeat split; [intros x []|exact E].
    + destruct IH as [(pre & url' & post & l & -> & Hpre & Hurl) | Hnone].
      * left. exists (url :: pre), url', post, l. repeat split; [|exact Hurl].
        intros x [<- | Hx]; [exact E | apply Hpre; exact Hx].
      * right. intros x [<- | Hx]; [exact E | apply Hnone; exact Hx].
Qed.

Lemma fetch_events (urls : list pystr) :
  forall last_err ev,
    In ev (fst (fetch_from w last_err urls)) -> exists url, ev = request url.
Proof.
  induction urls as [|url rest IH]; intros last_err ev; [intros []|].
  cbn [fetch_from]. unfold after. cbn [fst].
  intros [<- | H]; [eauto|].
  destruct (http_json w url) as [data|e]; [|eapply IH; exact H].
  destruct data as [| | | | |l'|d]; try (eapply IH; exact H);
    [destruct H|].
  destruct (contains d (u "markets")); [|eapply IH; exact H].
  destruct (get d (u "markets")); try (eapply IH; exact H). destruct H.
Qed.

(** ** The claims about the fetcher, the writer and the entry point *)

(** C8.  [fetch_markets] asks the endpoints in order.  When an endpoint
    answers with a usable list and none before it did, that list is returned
    and no later endpoint is asked.  It raises exactly when no endpoint
    answers with a usable list; then all were asked, and it raises a
    [RuntimeError] whose text is
    ["Failed to fetch markets from Polymarket. Last error: "] followed by
    the text of the last error among the answers, or by ["None"] when no
    answer was an error. *)
Theorem fetch_markets_first_usable :
  (forall pre url post l,
      GAMMA_ENDPOINTS = pre ++ url :: post ->
      (forall x, In x pre -> usable_list (http_json w x) = None) ->
      usable_list (http_json w url) = Some l ->
      fetch_markets w = (map request (pre ++ [url]), Ok l))
  /\ ((exists e, snd (fetch_markets w) = Raise e)
      <-> (forall url, In url GAMMA_ENDPOINTS ->
                       usable_list (http_json w url) = None))
  /\ ((forall url, In url GAMMA_ENDPOINTS ->
                   usable_list (http_json w url) = None) ->
      fetch_markets w
      = (map request GAMMA_ENDPOINTS,
         Raise
           (RuntimeError
              (u "Failed to fetch markets from Polymarket. Last error: "
                 ++ match last_error (map (http_json w) GAMMA_ENDPOINTS) with
                    | Some e => exn_str e
                    | None => u "None"
                    end)))).
Proof.
  assert (Hnone :
            (forall url, In url GAMMA_ENDPOINTS ->
                         usable_list (http_json w url) = None) ->
            fetch_markets w
            = (map request GAMMA_ENDPOINTS,
               Raise
                 (RuntimeError
                    (u "Failed to fetch markets from Polymarket. Last error: "
                       ++ match last_error
                                  (map (http_json w) GAMMA_ENDPOINTS) with
                          | Some e => exn_str e
                          | None => u "None"
                          end)))).
  { intros H. unfold fetch_markets, last_error.
    rewrite (fetch_all_unusable GAMMA_ENDPOINTS H), fold_next_err.
    unfold fetch_failed, last_err_str. reflexivity. }
  split; [|split; [split|exact Hnone]].
  - intros pre url post l Hsplit Hpre Hurl. unfold fetch_markets.
    rewrite Hsplit. apply fetch_first_usable; assumption.
  - intros [e He].
    destruct (first_usable_or_none GAMMA_ENDPOINTS)
      as [(pre & url & post & l & Hsplit & Hpre & Hurl) | H]; [|exact H].
    unfold fetch_markets in He.
    rewrite Hsplit, (fetch_first_usable pre url post l Hpre Hurl) in He.
    discriminate He.
  - intros H. rewrite (Hnone H). eexists. reflexivity.
Qed.

(** C9.  [write_excel] raises on an empty list of rows, before it touches
    the file, and raises what the workbook library raises.  So when the fetch
    succeeds and no row is left, [main] prints the warning, calls
    [write_excel], prints its error and exits with status 3; no workbook is
    written. *)
Theorem no_rows_exit_3 (output : pystr) (include_multi : bool)
        (requests : list event) (markets : list value) :
  fetch_markets w = (requests, Ok markets) ->
  build_rows markets include_multi = Ok [] ->
  (forall path, write_excel w [] path = ([], Raise (RuntimeError NO_DATA)))
  /\ (forall rows path e,
         rows <> [] ->
         (forall wb, save_workbook w path wb = Some e) ->
         write_excel w rows path = ([], Raise e))
  /\ main w output include_multi
     = (requests
          ++ [Print Stderr WARNING; Print Stderr (WRITE_ERROR ++ NO_DATA)],
        3%Z)
  /\ (forall path wb,
         ~ In (WorkbookWritten path wb) (fst (main w output include_multi))).
Proof.
  intros Hfetch Hrows.
  assert (Hmain :
            main w output include_multi
            = (requests
                 ++ [Print Stderr WARNING;
                     Print Stderr (WRITE_ERROR ++ NO_DATA)],
               3%Z)).
  { unfold main. rewrite Hfetch, Hrows.
    cbn [write_excel io_raise exn_str app]. reflexivity. }
  split; [reflexivity|split; [|split; [exact Hmain|]]].
  - intros rows path e Hne Hsave. destruct rows as [|r rows]; [congruence|].
    unfold write_excel. rewrite Hsave. reflexivity.
  - intros path wb Hin. rewrite Hmain in Hin. cbn [fst] in Hin.
    apply in_app_or in Hin. destruct Hin as [Hin | Hin].
    + assert (Hev : In (WorkbookWritten path wb)
                       (fst (fetch_from w None GAMMA_ENDPOINTS))).
      { fold (fetch_markets w). rewrite Hfetch. exact Hin. }
      apply fetch_events in Hev. destruct Hev as [url Hev].
      discriminate Hev.
    + destruct Hin as [Hin | [Hin | []]]; discriminate Hin.
Qed.

End ProcessProperties.

(** * What the unguarded [lower()] breaks *)

Section CategoryDefect.

Context {rt : PyRuntime}.

(** C1.  [rain] has two outcomes and the second record has a title, no
    outcomes and a number for [type], which is no recognized category; yet
    [build_rows] keeps neither: the normalizer raises on the second record
    and the call ends with that [AttributeError]. *)
Theorem build_rows_default_raises_on_numeric_type :
  extract_title_and_outcomes rain
  = Ok (u "Will it rain?", [u "Yes"; u "No"])
  /\ build_rows [rain; mystery_numeric] false
     = Raise (AttributeError (u "'int' object has no attribute 'lower'")).
Proof. split; vm_compute; reflexivity. Qed.

(** C5.  A record with a title, no outcomes under either key and [true] as
    [conditionType]: no lookup finds outcome data, and the normalizer raises
    [AttributeError] where the placeholder pair was to be returned. *)
Theorem no_placeholder_for_boolean_condition_type :
  nonempty_list (get flagged (u "outcomes")) = false
  /\ nonempty_list (get flagged (u "outcomeNames")) = false
  /\ extract_title_and_outcomes (VDict flagged)
     = Raise (AttributeError (u "'bool' object has no attribute 'lower'")).
Proof. repeat split; vm_compute; reflexivity. Qed.

(** C10.  With [include_multi], a list of two records of which the second
    holds a number for [type] gives no row at all: [build_rows] raises. *)
Theorem build_rows_multi_raises_on_numeric_type :
  List.length [rain; numeric_type] = 2
  /\ build_rows [rain; numeric_type] true
     = Raise (AttributeError (u "'int' object has no attribute 'lower'")).
Proof. split; vm_compute; reflexivity. Qed.

End CategoryDefect.

(** * The properties on concrete records *)

(** C3, as the specification words it, fails on a record whose [question] is
    the empty string: the empty string is present and not null, yet the
    normalizer passes over it and takes the [title]. *)
Lemma claimed_title_fails_on_empty_question :
  @extract_title_and_outcomes sample_runtime (VDict empty_question)
  = Ok (u "Will it rain?", [DASH; DASH])
  /\ @claimed_title sample_runtime empty_question = u ""
  /\ u "Will it rain?" <> @claimed_title sample_runtime empty_question.
Proof.
  split; [vm_compute; reflexivity|].
  split; [vm_compute; reflexivity|].
  vm_compute. discriminate.
Qed.

Lemma title_is_first_true_value_witness :
  exists os,
    @extract_title_and_outcomes sample_runtime (VDict empty_question)
    = Ok (u "Will it rain?", os).
Proof.
  destruct (@title_is_first_true_value sample_runtime empty_question)
    as [[os H] | (_ & _ & e & H & _)].
  - exists os. exact H.
  - vm_compute in H. discriminate H.
Defined.

Lemma category_defaults_to_yes_no_witness :
  nonempty_list (get typed_binary (u "outcomes")) = false
  /\ nonempty_list (get typed_binary (u "outcomeNames")) = false
  /\ category_is typed_binary (u "Binary")
  /\ In (u "binary") RECOGNIZED
  /\ ci_equal (u "Binary") (u "binary") = true
  /\ @extract_title_and_outcomes sample_runtime (VDict typed_binary)
     = Ok (@first_true_title sample_runtime typed_binary, [u "Yes"; u "No"]).
Proof.
  assert (H1 : nonempty_list (get typed_binary (u "outcomes")) = false)
    by (vm_compute; reflexivity).
  assert (H2 : nonempty_list (get typed_binary (u "outcomeNames")) = false)
    by (vm_compute; reflexivity).
  assert (H3 : category_is typed_binary (u "Binary"))
    by (right; split; vm_compute; reflexivity).
  assert (H4 : In (u "binary") RECOGNIZED) by (left; reflexivity).
  assert (H5 : ci_equal (u "Binary") (u "binary") = true)
    by (vm_compute; reflexivity).
  repeat (split; [assumption|]).
  exact (@category_defaults_to_yes_no sample_runtime typed_binary
           (u "Binary") (u "binary") H1 H2 H3 H4 H5).
Defined.

Lemma outcomes_never_empty_witness :
  exists d,
    mystery_market = VDict d
    /\ @extract_title_and_outcomes sample_runtime mystery_market
       = Ok (@first_true_title sample_runtime d, [DASH; DASH])
    /\ [DASH; DASH] <> [].
Proof.
  exists [ (u "slug", VStr (u "mystery-market")) ].
  unfold mystery_market.
  pose proof (@outcomes_never_empty sample_runtime mystery_market)
    as [Hne Hpair].
  assert (E : @extract_title_and_outcomes sample_runtime mystery_market
              = Ok (@first_true_title sample_runtime
                      [ (u "slug", VStr (u "mystery-market")) ],
                    [DASH; DASH])).
  { apply (Hpair _ (u "")); vm_compute; reflexivity. }
  split; [reflexivity|]. split; [exact E|].
  exact (Hne _ _ E).
Defined.

Lemma build_rows_default_witness :
  @build_rows sample_runtime [rain; pick_a_color; mystery_market] false
  = Ok [mkRow (u "Will it rain?") (u "Yes") (u "No");
        mkRow (u "mystery-market") DASH DASH]
  /\ @build_rows sample_runtime [VDict typed_binary; VDict empty_question]
                 false
     = Ok [mkRow UNTITLED (u "Yes") (u "No");
           mkRow (u "Will it rain?") DASH DASH].
Proof.
  split.
  - rewrite (proj1 (@build_rows_default sample_runtime
                      [rain; pick_a_color; mystery_market])).
    vm_compute. reflexivity.
  - rewrite (proj1 (@build_rows_default sample_runtime
                      [VDict typed_binary; VDict empty_question])).
    vm_compute. reflexivity.
Defined.

Lemma build_rows_multi_keeps_all_witness :
  @build_rows sample_runtime [rain; pick_a_color; mystery_market] true
  = Ok [mkRow (u "Will it rain?") (u "Yes") (u "No");
        mkRow (u "Pick a color") (u "Red") (u "Blue");
        mkRow (u "mystery-market") DASH DASH]
  /\ List.length [mkRow (u "Will it rain?") (u "Yes") (u "No");
                  mkRow (u "Pick a color") (u "Red") (u "Blue");
                  mkRow (u "mystery-market") DASH DASH]
     = List.length [rain; pick_a_color; mystery_market].
Proof.
  destruct (@build_rows_multi_keeps_all sample_runtime
              [rain; pick_a_color; mystery_market]) as [E Hlen].
  assert (H : @build_rows sample_runtime
                [rain; pick_a_color; mystery_market] true
              = Ok [mkRow (u "Will it rain?") (u "Yes") (u "No");
                    mkRow (u "Pick a color") (u "Red") (u "Blue");
                    mkRow (u "mystery-market") DASH DASH])
    by (rewrite E; vm_compute; reflexivity).
  split; [exact H | exact (Hlen _ H)].
Defined.

Lemma multi_outcome_record_witness :
  @extract_title_and_outcomes sample_runtime pick_a_color
  = Ok (u "Pick a color", [u "Red"; u "Blue"; u "Green"])
  /\ @build_rows sample_runtime [rain; pick_a_color; mystery_market] false
     = @build_rows sample_runtime [rain; mystery_market] false
  /\ @build_rows sample_runtime [rain; pick_a_color; mystery_market] true
     = (r1 <- @build_rows sample_runtime [rain] true ;;
        r2 <- @build_rows sample_runtime [mystery_market] true ;;
        Ok (r1 ++ mkRow (u "Pick a color") (u "Red") (u "Blue") :: r2)).
Proof.
  assert (H : @extract_title_and_outcomes sample_runtime pick_a_color
              = Ok (u "Pick a color", [u "Red"; u "Blue"; u "Green"]))
    by (vm_compute; reflexivity).
  split; [exact H|].
  destruct (@multi_outcome_record sample_runtime pick_a_color
              (u "Pick a color") (u "Red") (u "Blue") (u "Green") []
              [rain] [mystery_market] H) as (Hd & Hm & _).
  split; [exact Hd | exact Hm].
Defined.

Lemma fetch_markets_first_usable_witness :
  fetch_markets third_answers
  = (map request GAMMA_ENDPOINTS, Ok [rain])
  /\ fetch_markets failing_world
     = (map request GAMMA_ENDPOINTS,
        Raise
          (RuntimeError
             (u "Failed to fetch markets from Polymarket. Last error: Read timed out")))
  /\ fetch_markets failing_once_world
     = (map request GAMMA_ENDPOINTS,
        Raise
          (RuntimeError
             (u "Failed to fetch markets from Polymarket. Last error: 503 Server Error")))
  /\ fetch_markets (constant_world (Ok (VStr (u "maintenance"))))
     = (map request GAMMA_ENDPOINTS,
        Raise
          (RuntimeError
             (u "Failed to fetch markets from Polymarket. Last error: None"))).
Proof.
  split; [|split; [|split]].
  - destruct (fetch_markets_first_usable third_answers) as (Hfirst & _ & _).
    assert (Hsplit : GAMMA_ENDPOINTS
                     = [nth 0 GAMMA_ENDPOINTS []; nth 1 GAMMA_ENDPOINTS []]
                         ++ nth 2 GAMMA_ENDPOINTS [] :: [])
      by (vm_compute; reflexivity).
    assert (Hpre : forall x,
               In x [nth 0 GAMMA_ENDPOINTS []; nth 1 GAMMA_ENDPOINTS []] ->
               usable_list (http_json third_answers x) = None)
      by (intros x [<- | [<- | []]]; vm_compute; reflexivity).
    assert (Hurl : usable_list
                     (http_json third_answers (nth 2 GAMMA_ENDPOINTS []))
                   = Some [rain])
      by (vm_compute; reflexivity).
    rewrite (Hfirst _ _ _ _ Hsplit Hpre Hurl). vm_compute. reflexivity.
  - destruct (fetch_markets_first_usable failing_world) as (_ & _ & Hnone).
    rewrite Hnone
      by (unfold GAMMA_ENDPOINTS; intros url [<- | [<- | [<- | []]]];
          vm_compute; reflexivity).
    vm_compute. reflexivity.
  - destruct (fetch_markets_first_usable failing_once_world)
      as (_ & _ & Hnone).
    rewrite Hnone
      by (unfold GAMMA_ENDPOINTS; intros url [<- | [<- | [<- | []]]];
          vm_compute; reflexivity).
    vm_compute. reflexivity.
  - destruct (fetch_markets_first_usable
                (constant_world (Ok (VStr (u "maintenance")))))
      as (_ & _ & Hnone).
    rewrite Hnone by (intros url _; reflexivity).
    vm_compute. reflexivity.
Defined.

Lemma no_rows_exit_3_witness :
  fetch_markets (constant_world (Ok (VList [pick_a_color])))
  = ([request (nth 0 GAMMA_ENDPOINTS [])], Ok [pick_a_color])
  /\ @build_rows sample_runtime [pick_a_color] false = Ok []
  /\ @main sample_runtime (constant_world (Ok (VList [pick_a_color])))
           (u "polymarket_markets.xlsx") false
     = ([request (nth 0 GAMMA_ENDPOINTS []);
         Print Stderr WARNING; Print Stderr (WRITE_ERROR ++ NO_DATA)], 3%Z).
Proof.
  assert (H1 : fetch_markets (constant_world (Ok (VList [pick_a_color])))
               = ([request (nth 0 GAMMA_ENDPOINTS [])], Ok [pick_a_color]))
    by (vm_compute; reflexivity).
  assert (H2 : @build_rows sample_runtime [pick_a_color] false = Ok [])
    by (vm_compute; reflexivity).
  split; [exact H1|]. split; [exact H2|].
  destruct (@no_rows_exit_3 sample_runtime
              (constant_world (Ok (VList [pick_a_color])))
              (u "polymarket_markets.xlsx") false _ _ H1 H2)
    as (_ & _ & Hmain & _).
  exact Hmain.
Defined.

(** * Further properties of the normalizer *)

Section MoreNormalizerProperties.

Context {rt : PyRuntime}.

(** ** [strip] *)

Lemma lstrip_head (s : pystr) (c : N) (r : pystr) :
  lstrip s = c :: r -> is_space c = false.
Proof.
  induction s as [|a s IH]; cbn [lstrip]; [discriminate|].
  destruct (is_space a) eqn:E; [exact IH|].
  intros H. inversion H. subst. exact E.
Qed.

Lemma lstrip_keeps_last (p : pystr) (c : N) :
  is_space c = false -> exists q, lstrip (p ++ [c]) = q ++ [c].
Proof.
  intros Hc. induction p as [|a p IH]; cbn [app lstrip].
  - rewrite Hc. exists []. reflexivity.
  - destruct (is_space a); [exact IH|]. exists (a :: p). reflexivity.
Qed.

Lemma lstrip_blank (s : pystr) :
  forallb is_space s = true -> lstrip s = [].
Proof.
  induction s as [|a s IH]; cbn [forallb lstrip]; [reflexivity|].
  intros H. apply andb_true_iff in H. destruct H as [Ha Hs].
  rewrite Ha. apply IH. exact Hs.
Qed.

Lemma strip_trimmed (s : pystr) : trimmed (strip s) = true.
Proof.
  unfold strip, rstrip.
  destruct (lstrip s) as [|c r] eqn:E; [reflexivity|].
  pose proof (lstrip_head s c r E) as Hc.
  cbn [rev]. destruct (lstrip_keeps_last (rev r) c Hc) as [q Hq].
  rewrite Hq, rev_app_distr. cbn [rev app]. unfold trimmed.
  rewrite Hc. cbn [negb andb].
  destruct (rev q) as [|x l] eqn:Eq.
  - cbn [last]. rewrite Hc. reflexivity.
  - assert (Hlast : is_space (last (c :: x :: l) c) = false).
    { rewrite <- Eq.
      destruct (lstrip (rev r ++ [c])) as [|y t] eqn:El.
      - destruct q; discriminate Hq.
      - pose proof (lstrip_head _ _ _ El) as Hy.
        assert (Hrev : c :: rev q = rev (y :: t)).
        { rewrite Hq, rev_app_distr. reflexivity. }
        rewrite Hrev. cbn [rev]. rewrite last_last. exact Hy. }
    rewrite Hlast. reflexivity.
Qed.

Lemma strip_blank (s : pystr) : forallb is_space s = true -> strip s = [].
Proof.
  intros H. unfold strip, rstrip. rewrite (lstrip_blank s H). reflexivity.
Qed.

(** ** The title and the outcomes *)

Lemma extract_title (d : dict) (title : pystr) (os : list pystr) :
  extract_title_and_outcomes (VDict d) = Ok (title, os) ->
  title = first_true_title d.
Proof.
  intros H.
  destruct (nonempty_list (get d (u "outcomes"))) eqn:H1.
  { apply nonempty_list_inv in H1. destruct H1 as (o & l & H1).
    rewrite (extract_outcomes d o l H1) in H. congruence. }
  destruct (nonempty_list (get d (u "outcomeNames"))) eqn:H2.
  { apply nonempty_list_inv in H2. destruct H2 as (o & l & H2).
    rewrite (extract_outcome_names d o l H1 H2) in H. congruence. }
  rewrite (extract_category d H1 H2) in H.
  destruct (method_lower (category d)); [|discriminate H].
  cbn [bind] in H. congruence.
Qed.

Lemma py_str_strings (l : list pystr) : map py_str (map VStr l) = l.
Proof.
  induction l as [|s l IH]; cbn [map py_str]; [reflexivity|].
  rewrite IH. reflexivity.
Qed.

(** The normalizer raises exactly when it finds no list of outcomes and the
    category is not a string; what it raises is the [AttributeError] of the
    missing [lower]. *)
Theorem extract_raises_exactly (d : dict) (e : exn) :
  extract_title_and_outcomes (VDict d) = Raise e
  <-> (nonempty_list (get d (u "outcomes")) = false
       /\ nonempty_list (get d (u "outcomeNames")) = false
       /\ (forall s, category d <> VStr s)
       /\ e = no_attribute (category d) (u "lower")).
Proof.
  destruct (nonempty_list (get d (u "outcomes"))) eqn:H1.
  { apply nonempty_list_inv in H1. destruct H1 as (o & l & H1).
    rewrite (extract_outcomes d o l H1).
    split; [discriminate | intros (H & _); discriminate H]. }
  destruct (nonempty_list (get d (u "outcomeNames"))) eqn:H2.
  { apply nonempty_list_inv in H2. destruct H2 as (o & l & H2).
    rewrite (extract_outcome_names d o l H1 H2).
    split; [discriminate | intros (_ & H & _); discriminate H]. }
  rewrite (extract_category d H1 H2).
  destruct (category d) as [| b | n | f | s | l | d'] eqn:Ec;
    cbn [method_lower bind];
    try (split;
         [ intros H; inversion H; repeat split; intros s; discriminate
         | intros (_ & _ & _ & ->); reflexivity ]).
  split; [discriminate|]. intros (_ & _ & H & _). destruct (H s eq_refl).
Qed.

(** A title the normalizer returns neither starts nor ends with
    whitespace. *)
Theorem title_is_trimmed (m : value) (title : pystr) (os : list pystr) :
  extract_title_and_outcomes m = Ok (title, os) -> trimmed title = true.
Proof.
  intros H. destruct m as [| | | | | |d]; try discriminate H.
  rewrite (extract_title d title os H). unfold first_true_title.
  destruct (first_value truthy d TITLE_KEYS) as [v|];
    [apply strip_trimmed | vm_compute; reflexivity].
Qed.

(** A blank title is kept: when the first true value among the title keys
    is a string of whitespace, the title is empty; neither a later key nor
    the placeholder replaces it. *)
Theorem blank_title_is_empty (d : dict) (s title : pystr)
        (os : list pystr) :
  first_value truthy d TITLE_KEYS = Some (VStr s) ->
  forallb is_space s = true ->
  extract_title_and_outcomes (VDict d) = Ok (title, os) ->
  title = [].
Proof.
  intros Hfirst Hblank H.
  rewrite (extract_title d title os H). unfold first_true_title.
  rewrite Hfirst. cbn [py_str]. apply strip_blank. exact Hblank.
Qed.

(** When [outcomes] holds a non-empty list of strings, these strings are
    the outcomes, unchanged and in order; [outcomeNames], [conditionType]
    and [type] play no part, whatever they hold. *)
Theorem string_outcomes_unchanged (d : dict) (o : pystr) (l : list pystr) :
  get d (u "outcomes") = VList (map VStr (o :: l)) ->
  extract_title_and_outcomes (VDict d) = Ok (first_true_title d, o :: l).
Proof.
  intros H. cbn [map] in H.
  rewrite (extract_outcomes d (VStr o) (map VStr l) H).
  change (map py_str (VStr o :: map VStr l))
    with (map py_str (map VStr (o :: l))).
  rewrite py_str_strings. reflexivity.
Qed.

(** When [outcomes] holds no non-empty list (it is absent, empty, or not a
    list) and [outcomeNames] holds a non-empty list of strings, these are
    the outcomes. *)
Theorem outcome_names_fallback (d : dict) (o : pystr) (l : list pystr) :
  nonempty_list (get d (u "outcomes")) = false ->
  get d (u "outcomeNames") = VList (map VStr (o :: l)) ->
  extract_title_and_outcomes (VDict d) = Ok (first_true_title d, o :: l).
Proof.
  intros H1 H2. cbn [map] in H2.
  rewrite (extract_outcome_names d (VStr o) (map VStr l) H1 H2).
  change (map py_str (VStr o :: map VStr l))
    with (map py_str (map VStr (o :: l))).
  rewrite py_str_strings. reflexivity.
Qed.

(** [type] is looked at only when [conditionType] holds nothing: with no
    list of outcomes and a [conditionType] that is a non-empty string and
    not recognized, the outcomes are the placeholder pair, whatever [type]
    holds. *)
Theorem condition_type_shadows_type (d : dict) (s : pystr) :
  nonempty_list (get d (u "outcomes")) = false ->
  nonempty_list (get d (u "outcomeNames")) = false ->
  get d (u "conditionType") = VStr s ->
  s <> [] ->
  existsb (pystr_eqb (lower s)) RECOGNIZED = false ->
  extract_title_and_outcomes (VDict d)
  = Ok (first_true_title d, [DASH; DASH]).
Proof.
  intros H1 H2 Hc Hs Hrec.
  apply (extract_placeholder d s H1 H2); [|exact Hrec].
  apply category_is_str; [left; exact Hc | exact Hs].
Qed.

(** The normalizer reads eight keys and nothing else: two records that
    agree on them normalize alike. *)
Theorem extract_reads_eight_keys (d d' : dict) :
  (forall k, In k NORMALIZER_KEYS -> get d k = get d' k) ->
  extract_title_and_outcomes (VDict d) = extract_title_and_outcomes (VDict d').
Proof.
  intros H.
  assert (Hk : forall k, In k NORMALIZER_KEYS -> get d k = get d' k)
    by exact H.
  unfold NORMALIZER_KEYS in Hk. cbn [In] in Hk.
  unfold extract_title_and_outcomes.
  rewrite (Hk (u "question")), (Hk (u "title")), (Hk (u "name")),
    (Hk (u "slug")), (Hk (u "outcomes")), (Hk (u "outcomeNames")),
    (Hk (u "conditionType")), (Hk (u "type")) by tauto.
  reflexivity.
Qed.

End MoreNormalizerProperties.

(** * Further properties of the row builder *)

Section MoreRowBuilderProperties.

Context {rt : PyRuntime}.

Lemma normalize_all_returns (markets : list value) :
  (exists ns, normalize_all markets = Ok ns)
  <-> Forall (fun m => exists n, extract_title_and_outcomes m = Ok n) markets.
Proof.
  induction markets as [|m rest IH]; cbn [normalize_all].
  - split; [constructor | eauto].
  - split.
    + intros [ns H].
      destruct (extract_title_and_outcomes m) as [n|e] eqn:E;
        [|discriminate H].
      cbn [bind] in H. constructor; [exists n; exact E|].
      apply IH. destruct (normalize_all rest); [eauto | discriminate H].
    + intros H. inversion H as [|x l [n Hn] Hrest]; subst.
      apply IH in Hrest. destruct Hrest as [ns Hns].
      rewrite Hn, Hns. cbn [bind]. eauto.
Qed.

Lemma build_rows_returns (markets : list value) (include_multi : bool) :
  (exists rows, build_rows markets include_multi = Ok rows)
  <-> (exists ns, normalize_all markets = Ok ns).
Proof.
  rewrite build_rows_spec.
  destruct (normalize_all markets) as [ns|e]; cbn [bind].
  - split; eauto.
  - split; intros [x H]; discriminate H.
Qed.

(** [build_rows] stops at the first record the normalizer raises on, with
    that exception, whatever follows and in both modes; no row is
    returned. *)
Theorem build_rows_first_failure (before after : list value) (m : value)
        (e : exn) (include_multi : bool) :
  Forall (fun x => exists n, extract_title_and_outcomes x = Ok n) before ->
  extract_title_and_outcomes m = Raise e ->
  build_rows (before ++ m :: after) include_multi = Raise e.
Proof.
  intros Hbefore Hm. apply normalize_all_returns in Hbefore.
  destruct Hbefore as [ns Hns].
  rewrite build_rows_spec, normalize_all_app, Hns.
  cbn [bind normalize_all]. rewrite Hm. reflexivity.
Qed.

(** [build_rows] returns exactly when the normalizer returns on every
    record. *)
Theorem build_rows_returns_iff (markets : list value)
        (include_multi : bool) :
  (exists rows, build_rows markets include_multi = Ok rows)
  <-> Forall (fun m => exists n, extract_title_and_outcomes m = Ok n) markets.
Proof.
  rewrite build_rows_returns. apply normalize_all_returns.
Qed.

(** The rows of two lists of records, one after the other, are the rows of
    the first followed by the rows of the second. *)
Theorem build_rows_concat (xs ys : list value) (include_multi : bool)
        (rx ry : list ExportRow) :
  build_rows xs include_multi = Ok rx ->
  build_rows ys include_multi = Ok ry ->
  build_rows (xs ++ ys) include_multi = Ok (rx ++ ry).
Proof.
  intros Hx Hy. rewrite build_rows_app, Hx, Hy. reflexivity.
Qed.

(** The two modes fail alike, and when they return, every row of the
    default mode is a row of the mode with [include_multi], which has at
    least as many. *)
Theorem include_multi_only_adds (markets : list value) :
  (forall e, build_rows markets false = Raise e
             <-> build_rows markets true = Raise e)
  /\ (forall r1 r2,
         build_rows markets false = Ok r1 ->
         build_rows markets true = Ok r2 ->
         incl r1 r2 /\ List.length r1 <= List.length r2).
Proof.
  rewrite !build_rows_spec.
  destruct (normalize_all markets) as [ns|e0] eqn:Hn; cbn [bind].
  - split; [intros e; split; discriminate|].
    intros r1 r2 H1 H2. inversion H1. inversion H2. subst. clear H1 H2.
    pose proof (normalize_all_nonempty markets ns Hn) as Hall.
    rewrite Forall_forall in Hall.
    rewrite (flat_map_filter_map has_two first_two (appended false) ns)
      by (intros n _; apply appended_default).
    rewrite (flat_map_all first_two (appended true) ns)
      by (intros n Hin; apply appended_multi, Hall, Hin).
    split.
    + apply incl_map. apply incl_filter.
    + rewrite !length_map. apply filter_length_le.
  - split; [tauto|]. intros r1 r2 H. discriminate H.
Qed.

(** A record that normalizes to one outcome adds no row without
    [include_multi], and with it the row of its title, its outcome and the
    placeholder in the second column. *)
Theorem single_outcome_record (m : value) (title a : pystr)
        (before after : list value) :
  extract_title_and_outcomes m = Ok (title, [a]) ->
  build_rows (before ++ m :: after) false = build_rows (before ++ after) false
  /\ build_rows (before ++ m :: after) true
     = (r1 <- build_rows before true ;;
        r2 <- build_rows after true ;;
        Ok (r1 ++ mkRow title a DASH :: r2)).
Proof.
  intros H.
  assert (Hm : forall include_multi,
             build_rows [m] include_multi
             = Ok (if include_multi then [mkRow title a DASH] else [])).
  { intros im. unfold build_rows. rewrite build_rows_from_cons, H.
    destruct im; reflexivity. }
  change (m :: after) with ([m] ++ after).
  rewrite !build_rows_app, !Hm. split.
  - destruct (build_rows before false), (build_rows after false);
      reflexivity.
  - destruct (build_rows before true), (build_rows after true);
      reflexivity.
Qed.

End MoreRowBuilderProperties.

(** * Further properties of the fetcher and the entry point *)

Section MoreProcessProperties.

Context {rt : PyRuntime}.
Variable w : World.

Lemma fetch_from_prefix (urls : list pystr) :
  forall last_err,
  exists n,
    n <= List.length urls
    /\ (urls <> [] -> 1 <= n)
    /\ fst (fetch_from w last_err urls) = map request (firstn n urls).
Proof.
  induction urls as [|url rest IH]; intros last_err.
  - exists 0. repeat split; [lia | congruence].
  - assert (Hstop : forall l : list value,
               exists n,
                 n <= List.length (url :: rest)
                 /\ (url :: rest <> [] -> 1 <= n)
                 /\ fst (after (request url) (io_ret l))
                    = map request (firstn n (url :: rest))).
    { intros l. exists 1. cbn [List.length]. repeat split; lia. }
    assert (Hnext : forall le,
               exists n,
                 n <= List.length (url :: rest)
                 /\ (url :: rest <> [] -> 1 <= n)
                 /\ fst (after (request url) (fetch_from w le rest))
                    = map request (firstn n (url :: rest))).
    { intros le. destruct (IH le) as (n & Hn & _ & E). exists (S n).
      cbn [List.length]. repeat split; [lia | lia |].
      unfold after. cbn [fst firstn map]. rewrite E. reflexivity. }
    cbn [fetch_from].
    destruct (http_json w url) as [data|e]; [|apply Hnext].
    destruct data as [| | | | |l|d]; try apply Hnext; [apply Hstop|].
    destruct (contains d (u "markets")); [|apply Hnext].
    destruct (get d (u "markets")); try apply Hnext. apply Hstop.
Qed.

Lemma fold_next_err_ok (answers : list (result value)) :
  Forall (fun r => exists v, r = Ok v) answers ->
  forall last_err, fold_left next_err answers last_err = last_err.
Proof.
  induction 1 as [|r answers [v ->] _ IH]; intros last_err;
    [reflexivity|].
  cbn [fold_left next_err]. apply IH.
Qed.

(** [fetch_markets] sends between one and three requests: to the first
    endpoints of the list, in order, each once, with the default headers and
    the timeout of 20; it sends nothing else. *)
Theorem fetch_requests_are_a_prefix :
  exists n,
    1 <= n <= 3
    /\ fst (fetch_markets w) = map request (firstn n GAMMA_ENDPOINTS)
    /\ NoDup (fst (fetch_markets w)).
Proof.
  destruct (fetch_from_prefix GAMMA_ENDPOINTS None) as (n & Hn & Hpos & E).
  change (List.length GAMMA_ENDPOINTS) with 3 in Hn.
  assert (H1 : 1 <= n) by (apply Hpos; discriminate).
  exists n. split; [lia|]. split; [exact E|].
  unfold fetch_markets. rewrite E.
  assert (Hn' : n = 1 \/ n = 2 \/ n = 3) by lia.
  destruct Hn' as [-> | [-> | ->]];
    unfold GAMMA_ENDPOINTS; cbn [firstn map];
    repeat (constructor;
            [cbn [In]; intros H;
             repeat (destruct H as [H | H];
                     [vm_compute in H; discriminate H|]);
             exact H|]);
    constructor.
Qed.

(** When every endpoint answers without an error and none of the answers is
    usable, [fetch_markets] raises after three requests, and its message
    names no error: it ends with ["Last error: None"]. *)
Theorem fetch_without_error_says_none :
  (forall url, In url GAMMA_ENDPOINTS ->
               exists v, http_json w url = Ok v
                         /\ usable_list (Ok v) = None) ->
  fetch_markets w = (map request GAMMA_ENDPOINTS, Raise (fetch_failed None))
  /\ exn_str (fetch_failed None)
     = u "Failed to fetch markets from Polymarket. Last error: None".
Proof.
  intros H. split; [|vm_compute; reflexivity].
  unfold fetch_markets. rewrite fetch_all_unusable.
  - rewrite fold_next_err_ok; [reflexivity|].
    apply Forall_forall. intros r Hr. apply in_map_iff in Hr.
    destruct Hr as (url & <- & Hurl).
    destruct (H url Hurl) as (v & Hv & _). eauto.
  - intros url Hurl. destruct (H url Hurl) as (v & Hv & Hu).
    rewrite Hv. exact Hu.
Qed.

(** ** The runs of [main] *)

(** No endpoint answers with a usable list: [main] prints the fetch error
    with the text of the last error on stderr and exits with status 2, after
    the three requests and nothing else. *)
Theorem main_fetch_failure (output : pystr) (include_multi : bool) :
  (forall url, In url GAMMA_ENDPOINTS ->
               usable_list (http_json w url) = None) ->
  main w output include_multi
  = (map request GAMMA_ENDPOINTS
       ++ [Print Stderr
             (FETCH_ERROR
                ++ exn_str
                     (fetch_failed
                        (last_error (map (http_json w) GAMMA_ENDPOINTS))))],
     2%Z).
Proof.
  intros H. unfold main, fetch_markets, last_error.
  rewrite (fetch_all_unusable w GAMMA_ENDPOINTS H), fold_next_err.
  reflexivity.
Qed.

(** A record the normalizer raises on ends the run: [main] does not catch
    the exception, so the process stops with a traceback and status 1,
    having printed nothing and written no workbook. *)
Theorem main_uncaught_record_error (output : pystr) (include_multi : bool)
        (requests : list event) (markets : list value) (m : value)
        (e' : exn) :
  fetch_markets w = (requests, Ok markets) ->
  In m markets ->
  extract_title_and_outcomes m = Raise e' ->
  exists e,
    build_rows markets include_multi = Raise e
    /\ main w output include_multi = (requests ++ [Traceback e], 1%Z).
Proof.
  intros Hfetch Hin Hm.
  destruct (build_rows markets include_multi) as [rows|e] eqn:Hrows.
  - assert (Hall : Forall (fun x => exists n,
                               extract_title_and_outcomes x = Ok n) markets).
    { apply normalize_all_returns.
      apply (build_rows_returns markets include_multi). eauto. }
    rewrite Forall_forall in Hall. destruct (Hall m Hin) as [n Hn].
    congruence.
  - exists e. split; [reflexivity|].
    unfold main. rewrite Hfetch, Hrows. reflexivity.
Qed.

(** With rows to write and a file system that takes the file, [main]
    writes one workbook at the output path: the rows as the sort of the
    library returns them and the two lines of the Meta sheet.  Then it
    prints the path and the number of rows on stdout and exits with
    status 0; or, when that [print] raises, the run ends with a traceback
    and status 1, the workbook being written. *)
Theorem main_after_write (output : pystr) (include_multi : bool)
        (requests : list event) (markets : list value)
        (r : ExportRow) (rows : list ExportRow) :
  fetch_markets w = (requests, Ok markets) ->
  build_rows markets include_multi = Ok (r :: rows) ->
  save_workbook w output (workbook_of w (r :: rows)) = None ->
  main w output include_multi
  = match stdout_print w (done_message output (r :: rows)) with
    | None =>
      (requests
         ++ [WorkbookWritten output (workbook_of w (r :: rows));
             Print Stdout (done_message output (r :: rows))],
       0%Z)
    | Some e =>
      (requests
         ++ [WorkbookWritten output (workbook_of w (r :: rows));
             Traceback e],
       1%Z)
    end.
Proof.
  intros Hfetch Hrows Hsave. unfold workbook_of in Hsave.
  unfold main, done_message, workbook_of. rewrite Hfetch, Hrows.
  unfold write_excel. cbv zeta. rewrite Hsave.
  destruct (stdout_print w _); reflexivity.
Qed.

(** With rows to write and a file system that refuses the file, [main]
    prints the write error with the text of the exception on stderr and
    exits with status 3; it prints no warning. *)
Theorem main_write_failure (output : pystr) (include_multi : bool)
        (requests : list event) (markets : list value)
        (r : ExportRow) (rows : list ExportRow) (e : exn) :
  fetch_markets w = (requests, Ok markets) ->
  build_rows markets include_multi = Ok (r :: rows) ->
  save_workbook w output (workbook_of w (r :: rows)) = Some e ->
  main w output include_multi
  = (requests ++ [Print Stderr (WRITE_ERROR ++ exn_str e)], 3%Z).
Proof.
  intros Hfetch Hrows Hsave. unfold workbook_of in Hsave.
  unfold main, done_message, workbook_of. rewrite Hfetch, Hrows.
  unfold write_excel. cbv zeta. rewrite Hsave. reflexivity.
Qed.





End MoreProcessProperties.

(** * The further properties on concrete records *)

Lemma title_is_trimmed_witness :
  @extract_title_and_outcomes sample_runtime padded_name
  = Ok (u "Will it rain?", [DASH; DASH])
  /\ trimmed (u "Will it rain?") = true.
Proof.
  assert (H : @extract_title_and_outcomes sample_runtime padded_name
              = Ok (u "Will it rain?", [DASH; DASH]))
    by (vm_compute; reflexivity).
  split; [exact H|].
  exact (@title_is_trimmed sample_runtime padded_name _ _ H).
Defined.

Lemma blank_title_is_empty_witness :
  first_value truthy blank_question TITLE_KEYS = Some (VStr (u "   "))
  /\ forallb is_space (u "   ") = true
  /\ @extract_title_and_outcomes sample_runtime (VDict blank_question)
     = Ok ([], [DASH; DASH]).
Proof.
  assert (H1 : first_value truthy blank_question TITLE_KEYS
               = Some (VStr (u "   "))) by (vm_compute; reflexivity).
  assert (H2 : forallb is_space (u "   ") = true)
    by (vm_compute; reflexivity).
  assert (H3 : @extract_title_and_outcomes sample_runtime
                 (VDict blank_question)
               = Ok (strip (u "   "), [DASH; DASH]))
    by (vm_compute; reflexivity).
  split; [exact H1|]. split; [exact H2|].
  rewrite H3.
  rewrite (@blank_title_is_empty sample_runtime blank_question (u "   ")
             _ _ H1 H2 H3).
  reflexivity.
Defined.

Lemma string_outcomes_unchanged_witness :
  get padded_outcomes (u "outcomes")
  = VList (map VStr [u " Yes "; u "No"])
  /\ @extract_title_and_outcomes sample_runtime (VDict padded_outcomes)
     = Ok (@first_true_title sample_runtime padded_outcomes,
           [u " Yes "; u "No"]).
Proof.
  assert (H : get padded_outcomes (u "outcomes")
              = VList (map VStr [u " Yes "; u "No"]))
    by (vm_compute; reflexivity).
  split; [exact H|].
  exact (@string_outcomes_unchanged sample_runtime padded_outcomes _ _ H).
Defined.

Lemma outcome_names_fallback_witness :
  nonempty_list (get names_only (u "outcomes")) = false
  /\ get names_only (u "outcomeNames") = VList (map VStr [u "Up"; u "Down"])
  /\ @extract_title_and_outcomes sample_runtime (VDict names_only)
     = Ok (@first_true_title sample_runtime names_only, [u "Up"; u "Down"]).
Proof.
  assert (H1 : nonempty_list (get names_only (u "outcomes")) = false)
    by (vm_compute; reflexivity).
  assert (H2 : get names_only (u "outcomeNames")
               = VList (map VStr [u "Up"; u "Down"]))
    by (vm_compute; reflexivity).
  split; [exact H1|]. split; [exact H2|].
  exact (@outcome_names_fallback sample_runtime names_only _ _ H1 H2).
Defined.

Lemma condition_type_shadows_type_witness :
  get shadowed_type (u "conditionType") = VStr (u "categorical")
  /\ get shadowed_type (u "type") = VStr (u "binary")
  /\ @extract_title_and_outcomes sample_runtime (VDict shadowed_type)
     = Ok (@first_true_title sample_runtime shadowed_type, [DASH; DASH]).
Proof.
  assert (H1 : nonempty_list (get shadowed_type (u "outcomes")) = false)
    by (vm_compute; reflexivity).
  assert (H2 : nonempty_list (get shadowed_type (u "outcomeNames")) = false)
    by (vm_compute; reflexivity).
  assert (H3 : get shadowed_type (u "conditionType")
               = VStr (u "categorical")) by (vm_compute; reflexivity).
  assert (H4 : u "categorical" <> []) by (vm_compute; discriminate).
  assert (H5 : existsb (pystr_eqb (@lower sample_runtime (u "categorical")))
                       RECOGNIZED = false) by (vm_compute; reflexivity).
  split; [exact H3|]. split; [vm_compute; reflexivity|].
  exact (@condition_type_shadows_type sample_runtime shadowed_type _
           H1 H2 H3 H4 H5).
Defined.

Lemma extract_reads_eight_keys_witness :
  (forall k, In k NORMALIZER_KEYS ->
             get rain_with_more k = get rain_fields k)
  /\ @extract_title_and_outcomes sample_runtime (VDict rain_with_more)
     = @extract_title_and_outcomes sample_runtime (VDict rain_fields).
Proof.
  assert (H : forall k, In k NORMALIZER_KEYS ->
                        get rain_with_more k = get rain_fields k).
  { intros k Hk. unfold NORMALIZER_KEYS in Hk. cbn [In] in Hk.
    repeat (destruct Hk as [<- | Hk]; [vm_compute; reflexivity|]).
    destruct Hk. }
  split; [exact H|].
  exact (@extract_reads_eight_keys sample_runtime rain_with_more
           rain_fields H).
Defined.

Lemma build_rows_first_failure_witness :
  Forall (fun x => exists n,
              @extract_title_and_outcomes sample_runtime x = Ok n) [rain]
  /\ @extract_title_and_outcomes sample_runtime numeric_type
     = Raise (AttributeError (u "'int' object has no attribute 'lower'"))
  /\ @build_rows sample_runtime [rain; numeric_type; mystery_market] true
     = Raise (AttributeError (u "'int' object has no attribute 'lower'")).
Proof.
  assert (H1 : Forall (fun x => exists n,
                           @extract_title_and_outcomes sample_runtime x
                           = Ok n) [rain]).
  { constructor; [|constructor]. eexists. vm_compute. reflexivity. }
  assert (H2 : @extract_title_and_outcomes sample_runtime numeric_type
               = Raise (AttributeError
                          (u "'int' object has no attribute 'lower'")))
    by (vm_compute; reflexivity).
  split; [exact H1|]. split; [exact H2|].
  exact (@build_rows_first_failure sample_runtime [rain] [mystery_market]
           numeric_type _ true H1 H2).
Defined.

Lemma build_rows_returns_iff_witness :
  exists rows, @build_rows sample_runtime [rain; solo] false = Ok rows.
Proof.
  apply (@build_rows_returns_iff sample_runtime [rain; solo] false).
  repeat constructor; eexists; vm_compute; reflexivity.
Defined.

Lemma build_rows_concat_witness :
  @build_rows sample_runtime [rain] false
  = Ok [mkRow (u "Will it rain?") (u "Yes") (u "No")]
  /\ @build_rows sample_runtime [pick_a_color; mystery_market] false
     = Ok [mkRow (u "mystery-market") DASH DASH]
  /\ @build_rows sample_runtime ([rain] ++ [pick_a_color; mystery_market])
                 false
     = Ok ([mkRow (u "Will it rain?") (u "Yes") (u "No")]
             ++ [mkRow (u "mystery-market") DASH DASH]).
Proof.
  assert (H1 : @build_rows sample_runtime [rain] false
               = Ok [mkRow (u "Will it rain?") (u "Yes") (u "No")])
    by (vm_compute; reflexivity).
  assert (H2 : @build_rows sample_runtime [pick_a_color; mystery_market]
                 false
               = Ok [mkRow (u "mystery-market") DASH DASH])
    by (vm_compute; reflexivity).
  split; [exact H1|]. split; [exact H2|].
  exact (@build_rows_concat sample_runtime _ _ false _ _ H1 H2).
Defined.

Lemma include_multi_only_adds_witness :
  incl [mkRow (u "Will it rain?") (u "Yes") (u "No")]
       [mkRow (u "Will it rain?") (u "Yes") (u "No");
        mkRow (u "Pick a color") (u "Red") (u "Blue")]
  /\ 1 <= 2.
Proof.
  assert (H1 : @build_rows sample_runtime [rain; pick_a_color] false
               = Ok [mkRow (u "Will it rain?") (u "Yes") (u "No")])
    by (vm_compute; reflexivity).
  assert (H2 : @build_rows sample_runtime [rain; pick_a_color] true
               = Ok [mkRow (u "Will it rain?") (u "Yes") (u "No");
                     mkRow (u "Pick a color") (u "Red") (u "Blue")])
    by (vm_compute; reflexivity).
  exact (proj2 (@include_multi_only_adds sample_runtime
                  [rain; pick_a_color]) _ _ H1 H2).
Defined.

Lemma single_outcome_record_witness :
  @extract_title_and_outcomes sample_runtime solo
  = Ok (u "Solo", [u "Only"])
  /\ @build_rows sample_runtime ([rain] ++ solo :: []) false
     = @build_rows sample_runtime ([rain] ++ []) false
  /\ @build_rows sample_runtime ([rain] ++ solo :: []) true
     = (r1 <- @build_rows sample_runtime [rain] true ;;
        r2 <- @build_rows sample_runtime [] true ;;
        Ok (r1 ++ mkRow (u "Solo") (u "Only") DASH :: r2)).
Proof.
  assert (H : @extract_title_and_outcomes sample_runtime solo
              = Ok (u "Solo", [u "Only"])) by (vm_compute; reflexivity).
  split; [exact H|].
  exact (@single_outcome_record sample_runtime solo _ _ [rain] [] H).
Defined.

Lemma fetch_without_error_says_none_witness :
  (forall url, In url GAMMA_ENDPOINTS ->
               exists v,
                 http_json (constant_world (Ok (VStr (u "maintenance")))) url
                 = Ok v
                 /\ usable_list (Ok v) = None)
  /\ fetch_markets (constant_world (Ok (VStr (u "maintenance"))))
     = (map request GAMMA_ENDPOINTS, Raise (fetch_failed None)).
Proof.
  assert (H : forall url, In url GAMMA_ENDPOINTS ->
                exists v,
                  http_json (constant_world (Ok (VStr (u "maintenance"))))
                            url = Ok v
                  /\ usable_list (Ok v) = None).
  { intros url _. exists (VStr (u "maintenance")). split; reflexivity. }
  split; [exact H|].
  exact (proj1 (fetch_without_error_says_none
                  (constant_world (Ok (VStr (u "maintenance")))) H)).
Defined.

Lemma main_fetch_failure_witness :
  (forall url, In url GAMMA_ENDPOINTS ->
               usable_list
                 (http_json
                    (constant_world (Raise (LibraryError (u "timed out"))))
                    url) = None)
  /\ @main sample_runtime
          (constant_world (Raise (LibraryError (u "timed out"))))
          (u "polymarket_markets.xlsx") false
     = (map request GAMMA_ENDPOINTS
          ++ [Print Stderr
                (FETCH_ERROR
                   ++ u "Failed to fetch markets from Polymarket. Last error: timed out")],
        2%Z).
Proof.
  assert (H : forall url, In url GAMMA_ENDPOINTS ->
                usable_list
                  (http_json
                     (constant_world (Raise (LibraryError (u "timed out"))))
                     url) = None)
    by (intros url _; reflexivity).
  split; [exact H|].
  rewrite (@main_fetch_failure sample_runtime
             (constant_world (Raise (LibraryError (u "timed out"))))
             (u "polymarket_markets.xlsx") false H).
  vm_compute. reflexivity.
Defined.

Lemma main_uncaught_record_error_witness :
  fetch_markets (constant_world (Ok (VList [rain; numeric_type])))
  = ([request (nth 0 GAMMA_ENDPOINTS [])], Ok [rain; numeric_type])
  /\ @main sample_runtime (constant_world (Ok (VList [rain; numeric_type])))
          (u "polymarket_markets.xlsx") true
     = ([request (nth 0 GAMMA_ENDPOINTS [])]
          ++ [Traceback
                (AttributeError (u "'int' object has no attribute 'lower'"))],
        1%Z).
Proof.
  assert (H1 : fetch_markets (constant_world (Ok (VList [rain; numeric_type])))
               = ([request (nth 0 GAMMA_ENDPOINTS [])],
                  Ok [rain; numeric_type]))
    by (vm_compute; reflexivity).
  assert (H2 : In numeric_type [rain; numeric_type])
    by (right; left; reflexivity).
  assert (H3 : @extract_title_and_outcomes sample_runtime numeric_type
               = Raise (AttributeError
                          (u "'int' object has no attribute 'lower'")))
    by (vm_compute; reflexivity).
  split; [exact H1|].
  destruct (@main_uncaught_record_error sample_runtime
              (constant_world (Ok (VList [rain; numeric_type])))
              (u "polymarket_markets.xlsx") true _ _ _ _ H1 H2 H3)
    as (e & Hrows & Hmain).
  rewrite Hmain. vm_compute in Hrows. inversion Hrows.
  vm_compute. reflexivity.
Defined.

Lemma main_after_write_witness :
  fetch_markets (constant_world (Ok (VList [rain])))
  = ([request (nth 0 GAMMA_ENDPOINTS [])], Ok [rain])
  /\ @build_rows sample_runtime [rain] false
     = Ok [mkRow (u "Will it rain?") (u "Yes") (u "No")]
  /\ @main sample_runtime (constant_world (Ok (VList [rain])))
           (u "out.xlsx") false
     = ([request (nth 0 GAMMA_ENDPOINTS [])]
          ++ [WorkbookWritten
                (u "out.xlsx")
                (workbook_of (constant_world (Ok (VList [rain])))
                             [mkRow (u "Will it rain?") (u "Yes") (u "No")]);
              Print Stdout (u "Готово. Записано: out.xlsx (строк: 1)")],
        0%Z)
  /\ @main sample_runtime (ascii_stdout_world (Ok (VList [rain])))
           (u "out.xlsx") false
     = ([request (nth 0 GAMMA_ENDPOINTS [])]
          ++ [WorkbookWritten
                (u "out.xlsx")
                (workbook_of (ascii_stdout_world (Ok (VList [rain])))
                             [mkRow (u "Will it rain?") (u "Yes") (u "No")]);
              Traceback
                (UnicodeEncodeError
                   (u "'ascii' codec can't encode characters"))],
        1%Z).
Proof.
  assert (H1 : fetch_markets (constant_world (Ok (VList [rain])))
               = ([request (nth 0 GAMMA_ENDPOINTS [])], Ok [rain]))
    by (vm_compute; reflexivity).
  assert (H1' : fetch_markets (ascii_stdout_world (Ok (VList [rain])))
                = ([request (nth 0 GAMMA_ENDPOINTS [])], Ok [rain]))
    by (vm_compute; reflexivity).
  assert (H2 : @build_rows sample_runtime [rain] false
               = Ok [mkRow (u "Will it rain?") (u "Yes") (u "No")])
    by (vm_compute; reflexivity).
  assert (H3 : save_workbook (constant_world (Ok (VList [rain])))
                 (u "out.xlsx")
                 (workbook_of (constant_world (Ok (VList [rain])))
                    [mkRow (u "Will it rain?") (u "Yes") (u "No")])
               = None) by (vm_compute; reflexivity).
  assert (H3' : save_workbook (ascii_stdout_world (Ok (VList [rain])))
                  (u "out.xlsx")
                  (workbook_of (ascii_stdout_world (Ok (VList [rain])))
                     [mkRow (u "Will it rain?") (u "Yes") (u "No")])
                = None) by (vm_compute; reflexivity).
  split; [exact H1|]. split; [exact H2|]. split.
  - rewrite (@main_after_write sample_runtime
               (constant_world (Ok (VList [rain])))
               (u "out.xlsx") false _ _ _ _ H1 H2 H3).
    vm_compute. reflexivity.
  - rewrite (@main_after_write sample_runtime
               (ascii_stdout_world (Ok (VList [rain])))
               (u "out.xlsx") false _ _ _ _ H1' H2 H3').
    vm_compute. reflexivity.
Defined.

Lemma main_write_failure_witness :
  fetch_markets (read_only_world (Ok (VList [rain])))
  = ([request (nth 0 GAMMA_ENDPOINTS [])], Ok [rain])
  /\ @main sample_runtime (read_only_world (Ok (VList [rain])))
          (u "out.xlsx") false
     = ([request (nth 0 GAMMA_ENDPOINTS [])]
          ++ [Print Stderr
                (WRITE_ERROR
                   ++ exn_str (LibraryError (u "Permission denied")))],
        3%Z).
Proof.
  assert (H1 : fetch_markets (read_only_world (Ok (VList [rain])))
               = ([request (nth 0 GAMMA_ENDPOINTS [])], Ok [rain]))
    by (vm_compute; reflexivity).
  assert (H2 : @build_rows sample_runtime [rain] false
               = Ok [mkRow (u "Will it rain?") (u "Yes") (u "No")])
    by (vm_compute; reflexivity).
  assert (H3 : save_workbook (read_only_world (Ok (VList [rain])))
                 (u "out.xlsx")
                 (workbook_of (read_only_world (Ok (VList [rain])))
                    [mkRow (u "Will it rain?") (u "Yes") (u "No")])
               = Some (LibraryError (u "Permission denied")))
    by (vm_compute; reflexivity).
  split; [exact H1|].
  exact (@main_write_failure sample_runtime
           (read_only_world (Ok (VList [rain])))
           (u "out.xlsx") false _ _ _ _ _ H1 H2 H3).
Defined.
